(** * bootcamp_data: the orders/users ETL pipeline

    A shallow embedding of [src/bootcamp_data/etl.py] and of the two batch
    scripts [scripts/run_day2_clean.py] and [scripts/run_day3_build_analytics.py].

    - Python exceptions are an error type; a fallible computation returns
      [result].  Code that touches the file system threads a [world]
      and keeps what it wrote when it raises.
    - A pandas [DataFrame] is a row count (its RangeIndex) and an ordered list
      of named columns; a [Series] is a list of cells; a float cell is an
      exact rational, NaN/None/NaT is the cell [NA].
    - The packages [bootcamp_data.quality], [.transforms], [.joins], [.io]
      and [.config] are imported by the sources but are not part of them:
      the code of [etl.py] and of the scripts is written against the
      interface [BootcampData], and the modules [quality], [transforms] and
      [joins] below give the behaviour the specification describes. *)

From Stdlib Require Import Ascii QArith Qround Lqa.
From stdpp Require Import base list strings gmap.

Close Scope Q_scope.
Open Scope string_scope.
Open Scope nat_scope.

(** ** Python results *)

Inductive exn :=
  | SchemaError | EmptyDatasetError | UniquenessError | RangeError
  | JoinCardinalityError | SourceReadError | SinkWriteError
  | KeyError (column : string)
  | AssertionError (msg : string).

Inductive result (A : Type) :=
  | Ok (a : A)
  | Raise (e : exn).
Arguments Ok {A} a.
Arguments Raise {A} e.

#[global] Instance result_ret : MRet result := λ A a, Ok a.
#[global] Instance result_bind : MBind result := λ A B f m,
  match m with Ok a => f a | Raise e => Raise e end.

(** ** pandas *)

Inductive value :=
  | NA
  | Num (q : Q)
  | Str (s : string)
  | Bool (b : bool)
  | Timestamp (t : Z).

#[global] Instance Q_eq_dec : EqDecision Q.
Proof. solve_decision. Defined.
#[global] Instance value_eq_dec : EqDecision value.
Proof. solve_decision. Defined.

(** A Python float: [nan] or a finite number. *)
Inductive float := nan | fin (q : Q).

Abbreviation Series := (list value).

Record DataFrame := mkDataFrame {
  index : nat;                        (* number of rows *)
  data : list (string * Series)       (* the columns, in order *)
}.

Definition len (df : DataFrame) : nat := index df.

Definition columns (df : DataFrame) : list string := (data df).*1.

Fixpoint lookup_column (c : string) (d : list (string * Series)) : option Series :=
  match d with
  | [] => None
  | (c', s) :: d' => if decide (c' = c) then Some s else lookup_column c d'
  end.

(** [df[c]] *)
Definition getitem (df : DataFrame) (c : string) : result Series :=
  match lookup_column c (data df) with
  | Some s => Ok s
  | None => Raise (KeyError c)
  end.

(** Alignment of a column on the frame's index: cut or padded with NA. *)
Definition reindex (n : nat) (s : Series) : Series :=
  take n s ++ replicate (n - length s) NA.

Definition set_column (c : string) (s : Series) (d : list (string * Series))
    : list (string * Series) :=
  if decide (c ∈ d.*1)
  then (λ p : string * Series, if decide (p.1 = c) then (c, s) else p) <$> d
  else d ++ [(c, s)].

(** [df.assign(c=s)] *)
Definition assign (df : DataFrame) (c : string) (s : Series) : DataFrame :=
  {| index := index df; data := set_column c (reindex (index df) s) (data df) |}.

(** [df.drop(columns=cs, errors="ignore")] *)
Definition drop (df : DataFrame) (cs : list string) : DataFrame :=
  {| index := index df;
     data := filter (λ p : string * Series, p.1 ∉ cs) (data df) |}.

Definition is_na (v : value) : bool :=
  match v with NA => true | _ => false end.

(** [s.isna()] *)
Definition isna (s : Series) : list bool := is_na <$> s.

(** [.sum()] of a boolean column *)
Definition sum (bs : list bool) : nat := length (filter (λ b : bool, b = true) bs).

Definition ratio (n d : nat) : Q := Qred (Z.of_nat n # Pos.of_nat d).

(** [.mean()] of a boolean column; NaN on an empty one *)
Definition mean (bs : list bool) : float :=
  match bs with
  | [] => nan
  | _ => fin (ratio (sum bs) (length bs))
  end.

(** [1.0 - x] *)
Definition one_minus (x : float) : float :=
  match x with
  | nan => nan
  | fin q => fin (Qred (1 - q))
  end.

(** *** merge *)

Fixpoint matches_from (j : nat) (k : value) (keys : Series) : list nat :=
  match keys with
  | [] => []
  | k' :: keys' =>
      if decide (k' = k) then j :: matches_from (S j) k keys'
      else matches_from (S j) k keys'
  end.

(** The row pairs of a left join: every left row with each of the right rows
    carrying its key, or with no right row when there is none. *)
Fixpoint left_indexer_from (i : nat) (lkeys rkeys : Series) : list (nat * option nat) :=
  match lkeys with
  | [] => []
  | k :: lkeys' =>
      match matches_from 0 k rkeys with
      | [] => [(i, None)]
      | js => (λ j, (i, Some j)) <$> js
      end ++ left_indexer_from (S i) lkeys' rkeys
  end.

Definition left_indexer (lkeys rkeys : Series) : list (nat * option nat) :=
  left_indexer_from 0 lkeys rkeys.

Definition take_left (idx : list (nat * option nat)) (s : Series) : Series :=
  (λ p : nat * option nat, default NA (s !! p.1)) <$> idx.

Definition take_right (idx : list (nat * option nat)) (s : Series) : Series :=
  (λ p : nat * option nat,
     match p.2 with Some j => default NA (s !! j) | None => NA end) <$> idx.

Definition overlapping (on : string) (left right : DataFrame) (c : string) : bool :=
  bool_decide (c ≠ on ∧ c ∈ columns left ∧ c ∈ columns right).

Definition left_part (on : string) (suffix : string) (idx : list (nat * option nat))
    (left right : DataFrame) : list (string * Series) :=
  (λ p : string * Series,
     (if overlapping on left right p.1 then p.1 +:+ suffix else p.1,
      take_left idx p.2)) <$> data left.

Definition right_part (on : string) (suffix : string) (idx : list (nat * option nat))
    (left right : DataFrame) : list (string * Series) :=
  (λ p : string * Series,
     (if overlapping on left right p.1 then p.1 +:+ suffix else p.1,
      take_right idx p.2)) <$> filter (λ p : string * Series, p.1 ≠ on) (data right).

(** [left.merge(right, how="left", on=on, suffixes=suffixes)] *)
Definition merge_left (left right : DataFrame) (on : string)
    (suffixes : string * string) : result DataFrame :=
  lk ← getitem left on;
  rk ← getitem right on;
  let idx := left_indexer lk rk in
  Ok {| index := length idx;
        data := left_part on suffixes.1 idx left right
                ++ right_part on suffixes.2 idx left right |}.

(** ** Run configuration, run metadata and the file system *)

(** [etl.ETLConfig] (a frozen dataclass of paths) *)
Record ETLConfig := mkETLConfig {
  root : string;
  raw_orders : string;
  raw_users : string;
  out_orders_clean : string;
  out_users : string;
  out_analytics : string;
  run_meta : string
}.

(** The dictionary [meta] built by [write_run_meta]; [None] is Python's. *)
Record Metrics := mkMetrics {
  missing_created_at : option nat;
  country_match_rate : option float
}.

Record RunMeta := mkRunMeta {
  rows_in_orders_raw : nat;
  rows_in_users : nat;
  rows_out_analytics : nat;
  metrics : Metrics;
  config : ETLConfig
}.

Inductive file :=
  | Csv (df : DataFrame)
  | Parquet (df : DataFrame)
  | Json (meta : RunMeta).

(** The files, the paths that refuse a write, and the writes done so far
    (oldest first). *)
Record world := mkWorld {
  files : gmap string file;
  locked : gset string;
  written : list (string * file)
}.

(** A computation on the file system.  A raised exception keeps the world
    as it was left. *)
Definition IO (A : Type) : Type := world → result A * world.

#[global] Instance IO_ret : MRet IO := λ A a w, (Ok a, w).
#[global] Instance IO_bind : MBind IO := λ A B f m w,
  match m w with
  | (Ok a, w') => f a w'
  | (Raise e, w') => (Raise e, w')
  end.

Definition lift {A} (r : result A) : IO A := λ w, (r, w).

Definition write_file (path : string) (f : file) : IO () := λ w,
  if decide (path ∈ locked w) then (Raise SinkWriteError, w)
  else (Ok (), {| files := <[path := f]> (files w);
                  locked := locked w;
                  written := written w ++ [(path, f)] |}).

(** Modelled from the spec: the loader and writer of [bootcamp_data.io],
    which is not among the sources.  A loader returns the table stored at
    the location or fails with [SourceReadError]; the writer persists a
    table, overwriting what was there. *)
Module io.
(** Modelled from the spec: [io.read_orders_csv] is not among the sources. *)
Definition read_orders_csv (path : string) : IO DataFrame := λ w,
  match files w !! path with
  | Some (Csv df) => (Ok df, w)
  | _ => (Raise SourceReadError, w)
  end.

(** Modelled from the spec: [io.read_users_csv] is not among the sources. *)
Definition read_users_csv (path : string) : IO DataFrame := read_orders_csv path.

(** Modelled from the spec: [io.write_parquet] is not among the sources. *)
Definition write_parquet (df : DataFrame) (path : string) : IO () :=
  write_file path (Parquet df).
End io.

(** [pd.read_parquet], [df.to_parquet], [df.to_csv] *)
Definition read_parquet (path : string) : IO DataFrame := λ w,
  match files w !! path with
  | Some (Parquet df) => (Ok df, w)
  | _ => (Raise SourceReadError, w)
  end.

Definition to_parquet (df : DataFrame) (path : string) : IO () :=
  write_file path (Parquet df).

Definition to_csv (df : DataFrame) (path : string) : IO () :=
  write_file path (Csv df).

(** ** The imported packages as an interface *)

(** The [validate=] argument of a merge. *)
Inductive cardinality := one_to_one | one_to_many | many_to_one | many_to_many.

(** What the scripts use of [make_paths(ROOT)]. *)
Record Paths := mkPaths { raw : string; processed : string }.

(** The functions [etl.py] and the scripts import from [bootcamp_data].
    A keyword argument left out by a caller is [None]. *)
Class BootcampData := {
  make_paths : string → Paths;
  require_columns : DataFrame → list string → result ();
  assert_non_empty : DataFrame → string → result ();
  assert_unique_key : DataFrame → string → result ();
  assert_in_range : Series → Q → option Q → string → result ();
  enforce_schema : DataFrame → result DataFrame;
  missingness_report : DataFrame → result DataFrame;
  add_missing_flags : DataFrame → list string → result DataFrame;
  normalize_text : Series → result Series;
  apply_mapping : Series → gmap string string → result Series;
  parse_datetime : DataFrame → string → bool → result DataFrame;
  add_time_parts : DataFrame → string → result DataFrame;
  winsorize : Series → result Series;
  add_outlier_flag : DataFrame → string → option Q → result DataFrame;
  safe_left_join :
    DataFrame → DataFrame → string → cardinality → option (string * string) →
    result DataFrame
}.

(** ** bootcamp_data.quality *)

(** Modelled from the spec: the four checks of [bootcamp_data.quality],
    which is not among the sources (spec 4.1). *)
Module quality.
(** Modelled from the spec: [quality.require_columns] is not among the
    sources; it fails with [SchemaError] if a name is not a column. *)
Definition require_columns (df : DataFrame) (names : list string) : result () :=
  if decide (Forall (λ c, c ∈ columns df) names) then Ok () else Raise SchemaError.

(** Modelled from the spec: [quality.assert_non_empty] is not among the
    sources; it fails with [EmptyDatasetError] on a table without rows. *)
Definition assert_non_empty (df : DataFrame) (label : string) : result () :=
  if decide (len df = 0) then Raise EmptyDatasetError else Ok ().

(** Modelled from the spec: [quality.assert_unique_key] is not among the
    sources; it fails with [UniquenessError] if a value of the key column
    repeats. *)
Definition assert_unique_key (df : DataFrame) (key : string) : result () :=
  s ← getitem df key;
  if decide (NoDup s) then Ok () else Raise UniquenessError.

Definition in_range (lo : Q) (hi : option Q) (v : value) : bool :=
  match v with
  | NA => true
  | Num x => Qle_bool lo x && match hi with Some h => Qle_bool x h | None => true end
  | _ => false
  end.

(** Modelled from the spec: [quality.assert_in_range] is not among the
    sources; it fails with [RangeError] if a non-null value is outside
    [lo, hi], no [hi] being no upper bound. *)
Definition assert_in_range (s : Series) (lo : Q) (hi : option Q) (name : string)
    : result () :=
  if forallb (in_range lo hi) s then Ok () else Raise RangeError.
End quality.

(** ** bootcamp_data.transforms *)

(** Modelled from the spec: the transforms of [bootcamp_data.transforms],
    which is not among the sources (spec 4.2, 4.3, 4.4 and 4.6).  What the
    spec leaves open is a parameter: the per-column type coercion, the
    timestamp parser and the calendar parts. *)
Module transforms.

(** *** Text *)

Definition is_space (a : ascii) : bool :=
  let n := nat_of_ascii a in bool_decide (n = 32 ∨ 9 ≤ n ≤ 13).

Definition lower (a : ascii) : ascii :=
  let n := nat_of_ascii a in
  if bool_decide (65 ≤ n ≤ 90) then ascii_of_nat (n + 32) else a.

(** Lowercase, strip, and collapse each run of white space to one space.
    [started]: a character was kept; [gap]: white space was seen since. *)
Fixpoint squeeze (started gap : bool) (s : string) : string :=
  match s with
  | EmptyString => EmptyString
  | String a s' =>
      if is_space a then squeeze started started s'
      else
        let rest := String (lower a) (squeeze true false s') in
        if gap then String " "%char rest else rest
  end.

Definition normalize (s : string) : string := squeeze false false s.

(** Modelled from the spec: [transforms.normalize_text] is not among the
    sources; it normalizes the text cells and passes the others through. *)
Definition normalize_text (s : Series) : Series :=
  (λ v, match v with Str x => Str (normalize x) | _ => v end) <$> s.

(** Modelled from the spec: [transforms.apply_mapping] is not among the
    sources; an exact-match lookup, a value without an entry in the mapping
    being kept as it is. *)
Definition apply_mapping (s : Series) (mapping : gmap string string) : Series :=
  (λ v, match v with Str x => Str (default x (mapping !! x)) | _ => v end) <$> s.

(** *** Missingness *)

(** Modelled from the spec: [transforms.missingness_report] is not among the
    sources; one row per column with the count and the share of its nulls. *)
Definition missingness_report (df : DataFrame) : DataFrame :=
  {| index := length (data df);
     data := [ ("column", Str <$> columns df);
               ("n_missing",
                (λ p : string * Series, Num (inject_Z (Z.of_nat (sum (isna p.2)))))
                  <$> data df);
               ("p_missing",
                (λ p : string * Series,
                   match mean (isna p.2) with fin q => Num q | nan => NA end)
                  <$> data df) ] |}.

(** Modelled from the spec: [transforms.add_missing_flags] is not among the
    sources; for each named column a column [{col}_missing], true where the
    cell is null. *)
Fixpoint add_missing_flags (df : DataFrame) (cols : list string) : result DataFrame :=
  match cols with
  | [] => Ok df
  | c :: cols' =>
      s ← getitem df c;
      add_missing_flags (assign df (c +:+ "_missing") (Bool <$> isna s)) cols'
  end.

(** *** Outliers *)

(** [np.maximum] and [np.minimum]; on a tie the two floats are the same
    number, and the cell is the one kept here. *)
Definition qmax (x y : Q) : Q := if Qle_bool y x then x else y.
Definition qmin (x y : Q) : Q := if Qle_bool x y then x else y.

Fixpoint insert_sorted (x : Q) (l : list Q) : list Q :=
  match l with
  | [] => [x]
  | y :: l' => if Qle_bool x y then x :: l else y :: insert_sorted x l'
  end.

Definition sort_values (l : list Q) : list Q := foldr insert_sorted [] l.

(** The non-null numbers of a column. *)
Definition dropna (s : Series) : list Q :=
  omap (λ v, match v with Num q => Some q | _ => None end) s.

(** The [p]-quantile of a sorted sample, interpolating linearly between
    neighbours; none for an empty sample. *)
Definition quantile (xs : list Q) (p : Q) : option Q :=
  match xs with
  | [] => None
  | x0 :: _ =>
      let h := (p * inject_Z (Z.of_nat (length xs - 1)))%Q in
      let i := Z.to_nat (Qfloor h) in
      let a := nth i xs x0 in
      let b := nth (S i) xs a in
      Some (Qred (a + (h - inject_Z (Qfloor h)) * (b - a))%Q)
  end.

(** Modelled from the spec: the bound computation of the outlier capper is
    not among the sources; first and third quartile of the non-null values,
    widened by [k] interquartile ranges. *)
Definition iqr_bounds (s : Series) (k : Q) : option (Q * Q) :=
  let xs := sort_values (dropna s) in
  q1 ← quantile xs (1 # 4);
  q3 ← quantile xs (3 # 4);
  Some (Qred (q1 - k * (q3 - q1))%Q, Qred (q3 + k * (q3 - q1))%Q).

Definition clip_value (bounds : option (Q * Q)) (v : value) : value :=
  match bounds, v with
  | Some (lo, hi), Num x => Num (qmin (qmax x lo) hi)
  | _, _ => v
  end.

(** Modelled from the spec: the clamping of [transforms.winsorize]; values
    outside the bounds become the bound, nulls pass through. *)
Definition clip (bounds : option (Q * Q)) (s : Series) : Series :=
  clip_value bounds <$> s.

Definition default_k : Q := 3 # 2.

(** Modelled from the spec: [transforms.winsorize] is not among the sources;
    the column clamped to the bounds computed from it. *)
Definition winsorize (s : Series) (k : Q) : Series := clip (iqr_bounds s k) s.

Definition outside (bounds : option (Q * Q)) (v : value) : bool :=
  match bounds, v with
  | Some (lo, hi), Num x => negb (Qle_bool lo x) || negb (Qle_bool x hi)
  | _, _ => false
  end.

(** Modelled from the spec: [transforms.add_outlier_flag] is not among the
    sources; a column [{col}_outlier], true where the cell of [col] is
    outside the bounds computed from [col]. *)
Definition add_outlier_flag (df : DataFrame) (col : string) (k : Q) : result DataFrame :=
  s ← getitem df col;
  Ok (assign df (col +:+ "_outlier") (Bool <$> (outside (iqr_bounds s k) <$> s))).

Section Open.
Variable astype : string → value → value.
Variable to_datetime : bool → string → option Z.
Variable time_parts : list (string * (Z → value)).

(** Modelled from the spec: [transforms.enforce_schema] is not among the
    sources; every cell coerced to the type of its column. *)
Definition enforce_schema (df : DataFrame) : DataFrame :=
  {| index := index df;
     data := (λ p : string * Series, (p.1, astype p.1 <$> p.2)) <$> data df |}.

(** A text that does not parse becomes null, and so does a null. *)
Definition parse_cell (utc : bool) (v : value) : value :=
  match v with
  | Str x => match to_datetime utc x with Some t => Timestamp t | None => NA end
  | Timestamp t => Timestamp t
  | _ => NA
  end.

(** Modelled from the spec: [transforms.parse_datetime] is not among the
    sources; the named column parsed cell by cell. *)
Definition parse_datetime (df : DataFrame) (col : string) (utc : bool)
    : result DataFrame :=
  s ← getitem df col;
  Ok (assign df col (parse_cell utc <$> s)).

Definition part_cell (f : Z → value) (v : value) : value :=
  match v with Timestamp t => f t | _ => NA end.

(** Modelled from the spec: [transforms.add_time_parts] is not among the
    sources; one column per calendar part, null where the timestamp is. *)
Definition add_time_parts (df : DataFrame) (ts_col : string) : result DataFrame :=
  s ← getitem df ts_col;
  Ok (foldl (λ d (p : string * (Z → value)), assign d p.1 (part_cell p.2 <$> s))
            df time_parts).
End Open.
End transforms.

(** ** bootcamp_data.joins *)

(** Modelled from the spec: [safe_left_join] of [bootcamp_data.joins], which
    is not among the sources (spec 4.5).  The declared cardinality is
    confirmed on the key columns before the join is materialized. *)
Module joins.
Definition default_suffixes : string * string := ("_x", "_y").

Definition cardinality_holds (validate : cardinality) (lkeys rkeys : Series) : bool :=
  match validate with
  | one_to_one => bool_decide (NoDup lkeys) && bool_decide (NoDup rkeys)
  | one_to_many => bool_decide (NoDup lkeys)
  | many_to_one => bool_decide (NoDup rkeys)
  | many_to_many => true
  end.

(** Modelled from the spec: [joins.safe_left_join] is not among the sources;
    a left join that first fails with [JoinCardinalityError] if the key
    columns do not have the declared cardinality. *)
Definition safe_left_join (left right : DataFrame) (on : string)
    (validate : cardinality) (suffixes : string * string) : result DataFrame :=
  lk ← getitem left on;
  rk ← getitem right on;
  if cardinality_holds validate lk rk
  then merge_left left right on suffixes
  else Raise JoinCardinalityError.
End joins.

Definition path_join (dir name : string) : string := dir +:+ "/" +:+ name.

(** ** src/bootcamp_data/etl.py *)

Module etl.
Section code.
Context `{BootcampData}.

Definition load_inputs (cfg : ETLConfig) : IO (DataFrame * DataFrame) :=
  orders ← io.read_orders_csv (raw_orders cfg);
  users ← io.read_users_csv (raw_users cfg);
  mret (orders, users).

Definition status_map : gmap string string :=
  {[ "paid" := "paid"; "refund" := "refund"; "refunded" := "refund" ]}.

(** [lambda d: apply_mapping(normalize_text(d["status"]), status_map)] *)
Definition status_clean (d : DataFrame) : result Series :=
  st ← getitem d "status";
  norm ← normalize_text st;
  apply_mapping norm status_map.

(** [lambda df: winsorize(df["amount"])] *)
Definition amount_capped (df : DataFrame) : result Series :=
  a ← getitem df "amount";
  winsorize a.

Definition transform (orders_raw users : DataFrame) : result DataFrame :=
  (* 1. Fail-fast checks *)
  require_columns orders_raw
    ["order_id"; "user_id"; "amount"; "quantity"; "created_at"; "status"];;
  require_columns users ["user_id"; "country"; "signup_date"];;
  assert_non_empty orders_raw "orders_raw";;
  assert_non_empty users "users";;
  assert_unique_key users "user_id";;
  (* 2. Clean orders *)
  d ← enforce_schema orders_raw;
  sc ← status_clean d;
  d ← add_missing_flags (assign d "status_clean" sc) ["amount"; "quantity"];
  d ← parse_datetime d "created_at" true;
  orders ← add_time_parts d "created_at";
  (* 3. Join orders + users *)
  analytics ← safe_left_join orders users "user_id" many_to_one None;
  (* 4. Final enrichments *)
  capped ← amount_capped analytics;
  add_outlier_flag (assign analytics "amount" capped) "amount" None.

Definition load_outputs (analytics users : DataFrame) (cfg : ETLConfig) : IO () :=
  io.write_parquet users (out_users cfg);;
  io.write_parquet analytics (out_analytics cfg);;
  let user_side_cols := filter (λ c, c ≠ "user_id") (columns users) in
  let cols_to_drop := filter (λ c, c ∈ columns analytics) user_side_cols in
  let orders_clean := drop analytics cols_to_drop in
  io.write_parquet orders_clean (out_orders_clean cfg).

Definition write_run_meta (cfg : ETLConfig) (orders_raw users analytics : DataFrame)
    : IO () :=
  missing ← lift (
    if decide ("created_at" ∈ columns analytics)
    then s ← getitem analytics "created_at"; Ok (Some (sum (isna s)))
    else Ok None);
  rate ← lift (
    if decide ("country" ∈ columns analytics)
    then s ← getitem analytics "country"; Ok (Some (one_minus (mean (isna s))))
    else Ok None);
  let meta :=
    {| rows_in_orders_raw := len orders_raw;
       rows_in_users := len users;
       rows_out_analytics := len analytics;
       metrics := {| missing_created_at := missing; country_match_rate := rate |};
       config := cfg |} in
  write_file (run_meta cfg) (Json meta).

Definition run_etl (cfg : ETLConfig) : IO () :=
  (* 1. Extract *)
  inputs ← load_inputs cfg;
  let orders_raw := inputs.1 in
  let users_raw := inputs.2 in
  (* 2. Transform *)
  analytics ← lift (transform orders_raw users_raw);
  (* 3. Load outputs *)
  load_outputs analytics users_raw cfg;;
  (* 4. Generate metadata *)
  write_run_meta cfg orders_raw users_raw analytics.
End code.
End etl.

(** ** scripts/run_day2_clean.py *)

Module run_day2_clean.
Section code.
Context `{BootcampData}.

Definition main (ROOT : string) : IO () :=
  let p := make_paths ROOT in
  orders_raw ← io.read_orders_csv (path_join (raw p) "orders.csv");
  users ← io.read_users_csv (path_join (raw p) "users.csv");
  lift (require_columns orders_raw
          ["order_id"; "user_id"; "amount"; "quantity"; "created_at"; "status"]);;
  lift (require_columns users ["user_id"; "country"; "signup_date"]);;
  lift (assert_non_empty orders_raw "orders_raw");;
  lift (assert_non_empty users "users");;
  orders ← lift (enforce_schema orders_raw);
  (* Missingness artifact *)
  rep ← lift (missingness_report orders);
  let rep_path := path_join (path_join ROOT "reports") "missingness_orders.csv" in
  to_csv rep rep_path;;
  (* Text normalization + controlled mapping *)
  status_norm ← lift (st ← getitem orders "status"; normalize_text st);
  let mapping : gmap string string :=
    {[ "paid" := "paid"; "refund" := "refund"; "refunded" := "refund" ]} in
  status_clean ← lift (apply_mapping status_norm mapping);
  orders_clean ← lift (add_missing_flags (assign orders "status_clean" status_clean)
                                          ["amount"; "quantity"]);
  (* Fail-fast checks: amount and quantity are not negative *)
  lift (a ← getitem orders_clean "amount"; assert_in_range a 0%Q None "amount");;
  lift (q ← getitem orders_clean "quantity"; assert_in_range q 0%Q None "quantity");;
  io.write_parquet orders_clean (path_join (processed p) "orders_clean.parquet");;
  io.write_parquet users (path_join (processed p) "users.parquet").
End code.
End run_day2_clean.

(** ** scripts/run_day3_build_analytics.py *)

Module run_day3_build_analytics.
Section code.
Context `{BootcampData}.

(** The [groupby("country").agg(...).reset_index().sort_values("revenue")]
    summary of the joined table; it is written out and nothing else reads it. *)
Variable revenue_by_country : DataFrame → result DataFrame.

(** The join of [main] with the check that follows it. *)
Definition join_users (orders_t users : DataFrame) : result DataFrame :=
  joined ← safe_left_join orders_t users "user_id" many_to_one (Some ("", "_user"));
  if decide (len joined ≠ len orders_t)
  then Raise (AssertionError "Row count changed on left join (join explosion?)")
  else Ok joined.

Definition main (ROOT : string) : IO () :=
  let p := make_paths ROOT in
  orders ← read_parquet (path_join (processed p) "orders_clean.parquet");
  users ← read_parquet (path_join (processed p) "users.parquet");
  lift (require_columns orders
          ["order_id"; "user_id"; "amount"; "quantity"; "created_at"; "status_clean"]);;
  lift (require_columns users ["user_id"; "country"; "signup_date"]);;
  lift (assert_non_empty orders "orders_clean");;
  lift (assert_non_empty users "users");;
  lift (assert_unique_key users "user_id");;
  (* time *)
  orders_t ← lift (d ← parse_datetime orders "created_at" true;
                   add_time_parts d "created_at");
  n_missing_ts ← lift (s ← getitem orders_t "created_at"; Ok (sum (isna s)));
  (* join (orders many -> users one) *)
  joined ← lift (join_users orders_t users);
  match_rate ← lift (s ← getitem joined "country"; Ok (one_minus (mean (isna s))));
  (* outliers (keep rows; cap for viz) *)
  joined ← lift (a ← getitem joined "amount";
                 w ← winsorize a;
                 Ok (assign joined "amount_winsor" w));
  (* [add_outlier_flag] is imported, so it is not [None] and the flag is added *)
  joined ← lift (add_outlier_flag joined "amount" (Some (3 # 2)%Q));
  let out_path := path_join (processed p) "analytics_table.parquet" in
  to_parquet joined out_path;;
  summary ← lift (revenue_by_country joined);
  let report_path := path_join (path_join ROOT "reports") "revenue_by_country.csv" in
  to_csv summary report_path.
End code.
End run_day3_build_analytics.

(** ** The interface filled in from the specification *)

Section Spec.
Variable paths : string → Paths.
Variable astype : string → value → value.
Variable to_datetime : bool → string → option Z.
Variable time_parts : list (string * (Z → value)).

Definition spec_bootcamp : BootcampData :=
  {| make_paths := paths;
     require_columns := quality.require_columns;
     assert_non_empty := quality.assert_non_empty;
     assert_unique_key := quality.assert_unique_key;
     assert_in_range := quality.assert_in_range;
     enforce_schema := λ df, Ok (transforms.enforce_schema astype df);
     missingness_report := λ df, Ok (transforms.missingness_report df);
     add_missing_flags := transforms.add_missing_flags;
     normalize_text := λ s, Ok (transforms.normalize_text s);
     apply_mapping := λ s m, Ok (transforms.apply_mapping s m);
     parse_datetime := transforms.parse_datetime to_datetime;
     add_time_parts := transforms.add_time_parts time_parts;
     winsorize := λ s, Ok (transforms.winsorize s transforms.default_k);
     add_outlier_flag := λ df col k,
       transforms.add_outlier_flag df col (default transforms.default_k k);
     safe_left_join := λ left right on validate suffixes,
       joins.safe_left_join left right on validate
         (default joins.default_suffixes suffixes) |}.
End Spec.

(** ** Fixtures *)

Module fixture.

Definition paths (ROOT : string) : Paths :=
  {| raw := path_join ROOT "data/raw"; processed := path_join ROOT "data/processed" |}.

(** Cells are taken as they are; one date parses; the only calendar part is
    the year. *)
Definition to_datetime (utc : bool) (text : string) : option Z :=
  if decide (text = "2024-01-01") then Some 1704067200%Z else None.

Definition lib : BootcampData :=
  spec_bootcamp paths (λ _ v, v) to_datetime [("year", λ _, Num 2024)].

(** A joiner that returns every row of the join twice. *)
Definition exploding_join (left right : DataFrame) (on : string)
    (validate : cardinality) (suffixes : option (string * string)) : result DataFrame :=
  joined ← @safe_left_join lib left right on validate suffixes;
  Ok {| index := index joined + index joined;
        data := (λ p : string * Series, (p.1, (p.2 ++ p.2)%list)) <$> data joined |}.

Definition exploding : BootcampData :=
  {| make_paths := @make_paths lib;
     require_columns := @require_columns lib;
     assert_non_empty := @assert_non_empty lib;
     assert_unique_key := @assert_unique_key lib;
     assert_in_range := @assert_in_range lib;
     enforce_schema := @enforce_schema lib;
     missingness_report := @missingness_report lib;
     add_missing_flags := @add_missing_flags lib;
     normalize_text := @normalize_text lib;
     apply_mapping := @apply_mapping lib;
     parse_datetime := @parse_datetime lib;
     add_time_parts := @add_time_parts lib;
     winsorize := @winsorize lib;
     add_outlier_flag := @add_outlier_flag lib;
     safe_left_join := exploding_join |}.

Definition cfg : ETLConfig :=
  {| root := "repo";
     raw_orders := "repo/data/raw/orders.csv";
     raw_users := "repo/data/raw/users.csv";
     out_orders_clean := "repo/data/processed/orders_clean.parquet";
     out_users := "repo/data/processed/users.parquet";
     out_analytics := "repo/data/processed/analytics_table.parquet";
     run_meta := "repo/data/processed/_run_meta.json" |}.

Definition users : DataFrame :=
  {| index := 2;
     data := [ ("user_id", [Str "u1"; Str "u2"]);
               ("country", [Str "SA"; NA]);
               ("signup_date", [Str "2023-05-01"; Str "2023-06-01"]) ] |}.

(** One order, of amount -5. *)
Definition orders_negative : DataFrame :=
  {| index := 1;
     data := [ ("order_id", [Str "o1"]);
               ("user_id", [Str "u1"]);
               ("amount", [Num (-5)]);
               ("quantity", [Num 1]);
               ("created_at", [Str "2024-01-01"]);
               ("status", [Str "Paid"]) ] |}.

(** Five orders, the last of an amount far from the others; the fourth has
    no date that parses, the fifth a user that is not in [users]. *)
Definition orders_outlier : DataFrame :=
  {| index := 5;
     data := [ ("order_id", [Str "o1"; Str "o2"; Str "o3"; Str "o4"; Str "o5"]);
               ("user_id", [Str "u1"; Str "u2"; Str "u1"; Str "u1"; Str "u9"]);
               ("amount", [Num 10; Num 11; Num 12; Num 13; Num 1000]);
               ("quantity", [Num 1; Num 2; Num 1; NA; Num 3]);
               ("created_at", [Str "2024-01-01"; Str "2024-01-01"; Str "2024-01-01";
                               Str "not a date"; Str "2024-01-01"]);
               ("status", [Str "Paid"; Str " REFUNDED "; Str "paid"; Str "Refund";
                           Str "paid"]) ] |}.

Definition world_of (orders : DataFrame) : world :=
  {| files := {[ "repo/data/raw/orders.csv" := Csv orders;
                 "repo/data/raw/users.csv" := Csv users ]};
     locked := ∅;
     written := [] |}.

(** The summary of the day-3 script is not looked at. *)
Definition revenue_by_country (joined : DataFrame) : result DataFrame :=
  Ok {| index := 0; data := [] |}.

(** A table of four rows for the metadata: one null [created_at], one null
    [country]. *)
Definition analytics_four : DataFrame :=
  {| index := 4;
     data := [ ("order_id", [Str "o1"; Str "o2"; Str "o3"; Str "o4"]);
               ("created_at", [Timestamp 1704067200; NA; Timestamp 1704067200;
                               Timestamp 1704067200]);
               ("country", [Str "SA"; Str "SA"; NA; Str "AE"]);
               ("signup_date", [Str "2023-05-01"; Str "2023-05-01"; NA; Str "2023-06-01"]) ] |}.

(** The world the day-2 script leaves from the five orders. *)
Definition world_day3 : world :=
  (@run_day2_clean.main lib "repo" (world_of orders_outlier)).2.


End fixture.

(** ** Sequences of writes *)

(** A list of writes done in order, stopping at the first refused one: the
    shape of [load_outputs] followed by [write_run_meta]. *)
Fixpoint write_all (ws : list (string * file)) : IO () :=
  match ws with
  | [] => mret ()
  | x :: ws' => write_file x.1 x.2 ;; write_all ws'
  end.

(** The writes of a list that are done: those before the first locked path. *)
Fixpoint granted (lock : gset string) (ws : list (string * file)) : list (string * file) :=
  match ws with
  | [] => []
  | x :: ws' => if decide (x.1 ∈ lock) then [] else x :: granted lock ws'
  end.

(** The files after a list of writes. *)
Definition replay (ws : list (string * file)) (m : gmap string file) : gmap string file :=
  foldl (λ m (x : string * file), <[x.1 := x.2]> m) m ws.

(** The last file a list of writes puts at a path. *)
Fixpoint last_write (path : string) (ws : list (string * file)) : option file :=
  match ws with
  | [] => None
  | x :: ws' =>
      match last_write path ws' with
      | Some f => Some f
      | None => if decide (x.1 = path) then Some x.2 else None
      end
  end.

(** The orders-only table [load_outputs] derives from the analytics table. *)
Definition orders_clean_table (analytics users : DataFrame) : DataFrame :=
  drop analytics
    (filter (λ c, c ∈ columns analytics) (filter (λ c, c ≠ "user_id") (columns users))).

(** The four paths a run writes to. *)
Definition outputs (cfg : ETLConfig) : list string :=
  [out_users cfg; out_analytics cfg; out_orders_clean cfg; run_meta cfg].

(** ** More fixtures *)

Module sample.



(** The raw inputs of the five orders, on a file system that refuses a write
    of the analytics table. *)
Definition world_analytics_locked : world :=
  {| files := files (fixture.world_of fixture.orders_outlier);
     locked := {[ "repo/data/processed/analytics_table.parquet" ]};
     written := [] |}.

End sample.

(** * Properties *)

(** ** Columns *)

Lemma lookup_column_Some c d :
  c ∈ d.*1 → ∃ s, lookup_column c d = Some s.
Proof.
  induction d as [|[c' s'] d IH]; simpl.
  - intros Hin. by apply elem_of_nil in Hin.
  - intros Hin. destruct (decide (c' = c)) as [->|Hne]; [by eexists|].
    apply elem_of_cons in Hin as [Heq|Hin]; [congruence|auto].
Qed.

Lemma lookup_column_None c d :
  c ∉ d.*1 → lookup_column c d = None.
Proof.
  induction d as [|[c' s'] d IH]; simpl; [done|].
  intros Hnin. apply not_elem_of_cons in Hnin as [Hne Hnin].
  destruct (decide (c' = c)); [congruence|auto].
Qed.

Lemma getitem_columns df c :
  c ∈ columns df → ∃ s, getitem df c = Ok s.
Proof.
  intros Hin. unfold getitem.
  destruct (lookup_column_Some c (data df) Hin) as [s ->]. by eexists.
Qed.

Lemma getitem_Ok_columns df c s :
  getitem df c = Ok s → c ∈ columns df.
Proof.
  unfold getitem, columns. intros Hget.
  destruct (decide (c ∈ (data df).*1)) as [|Hnin]; [done|].
  by rewrite (lookup_column_None _ _ Hnin) in Hget.
Qed.

Lemma lookup_column_filter (P : string → Prop) `{∀ c, Decision (P c)} c d :
  P c →
  lookup_column c (filter (λ p : string * Series, P p.1) d) = lookup_column c d.
Proof.
  intros HP. induction d as [|[c' s'] d IH]; [done|].
  rewrite filter_cons. simpl. destruct (decide (P c')) as [HP'|HP']; simpl.
  - destruct (decide (c' = c)); [done|apply IH].
  - destruct (decide (c' = c)) as [->|]; [done|apply IH].
Qed.

(** ** Outlier capping *)

Lemma Qle_bool_false x y : Qle_bool x y = false → (y < x)%Q.
Proof.
  intros Hb. apply Qnot_le_lt. intros Hle.
  apply Qle_bool_iff in Hle. congruence.
Qed.

Lemma clamp_idempotent lo hi x :
  transforms.qmin (transforms.qmax (transforms.qmin (transforms.qmax x lo) hi) lo) hi
  = transforms.qmin (transforms.qmax x lo) hi.
Proof.
  unfold transforms.qmin, transforms.qmax.
  repeat match goal with
  | |- context [Qle_bool ?a ?b] =>
      is_var a; is_var b;
      let E := fresh "E" in
      destruct (Qle_bool a b) eqn:E;
      [apply Qle_bool_iff in E | apply Qle_bool_false in E]
  end; try reflexivity; exfalso; lra.
Qed.

Lemma clip_value_idempotent bounds v :
  transforms.clip_value bounds (transforms.clip_value bounds v)
  = transforms.clip_value bounds v.
Proof.
  destruct bounds as [[lo hi]|], v; simpl; try reflexivity.
  by rewrite clamp_idempotent.
Qed.

(** C8. Clamping a column to given bounds a second time changes nothing, a
    second [winsorize] with the bounds of the first one included, and a
    null cell is still a null cell after clamping. *)
Theorem winsorize_idempotent (bounds : option (Q * Q)) (s : Series) (k : Q) :
  transforms.clip bounds (transforms.clip bounds s) = transforms.clip bounds s
  ∧ transforms.clip (transforms.iqr_bounds s k) (transforms.winsorize s k)
    = transforms.winsorize s k
  ∧ ∀ i : nat, (transforms.clip bounds s !! i = Some NA ↔ s !! i = Some NA).
Proof.
  assert (Hidem : ∀ b, transforms.clip b (transforms.clip b s) = transforms.clip b s).
  { intros b. unfold transforms.clip. rewrite <- list_fmap_compose.
    apply list_fmap_ext. intros i v _. apply clip_value_idempotent. }
  split; [apply Hidem|]. split; [apply Hidem|].
  intros i. unfold transforms.clip. rewrite list_lookup_fmap.
  destruct (s !! i) as [v|]; simpl; [|done].
  destruct bounds as [[lo hi]|], v; simpl; split; congruence.
Qed.

(** ** Status vocabulary *)

Section Status.
Variable paths : string → Paths.
Variable astype : string → value → value.
Variable to_datetime : bool → string → option Z.
Variable time_parts : list (string * (Z → value)).

Let lib : BootcampData := spec_bootcamp paths astype to_datetime time_parts.

End Status.

(** ** The join *)

Lemma matches_from_absent j k rk :
  k ∉ rk → matches_from j k rk = [].
Proof.
  revert j. induction rk as [|k' rk IH]; intros j Hnin; simpl; [done|].
  apply not_elem_of_cons in Hnin as [Hne Hnin].
  destruct (decide (k' = k)); [congruence|auto].
Qed.

Lemma matches_from_unique j k rk :
  NoDup rk → length (matches_from j k rk) ≤ 1.
Proof.
  intros Hnd. revert j. induction Hnd as [|k' rk Hnin Hnd IH]; intros j; simpl; [lia|].
  destruct (decide (k' = k)) as [->|Hne]; [|apply IH].
  rewrite (matches_from_absent _ _ _ Hnin). simpl. lia.
Qed.

Lemma left_indexer_from_unique i lk rk :
  NoDup rk →
  left_indexer_from i lk rk
  = zip_with (λ n k, (n, head (matches_from 0 k rk))) (seq i (length lk)) lk.
Proof.
  intros Hnd. revert i. induction lk as [|k lk IH]; intros i; simpl; [done|].
  rewrite IH. pose proof (matches_from_unique 0 k rk Hnd) as Hlen.
  destruct (matches_from 0 k rk) as [|j [|j' js]]; simpl in *; [done|done|lia].
Qed.

Lemma left_indexer_length lk rk :
  NoDup rk → length (left_indexer lk rk) = length lk.
Proof.
  intros Hnd. unfold left_indexer. rewrite left_indexer_from_unique by done.
  rewrite length_zip_with, length_seq. lia.
Qed.

Lemma left_indexer_lookup lk rk i k :
  NoDup rk → lk !! i = Some k →
  left_indexer lk rk !! i = Some (i, head (matches_from 0 k rk)).
Proof.
  intros Hnd Hk. unfold left_indexer. rewrite left_indexer_from_unique by done.
  rewrite lookup_zip_with, Hk.
  rewrite lookup_seq_lt by (by eapply lookup_lt_Some). done.
Qed.

Lemma take_left_id lk rk s :
  NoDup rk → length s = length lk → take_left (left_indexer lk rk) s = s.
Proof.
  intros Hnd Hlen. apply list_eq. intros i. unfold take_left.
  rewrite list_lookup_fmap.
  destruct (lk !! i) as [k|] eqn:Hk.
  - rewrite (left_indexer_lookup _ _ _ _ Hnd Hk). simpl.
    destruct (lookup_lt_is_Some_2 s i) as [v Hv].
    { rewrite Hlen. by eapply lookup_lt_Some. }
    by rewrite Hv.
  - apply lookup_ge_None in Hk.
    rewrite (lookup_ge_None_2 s) by lia.
    rewrite lookup_ge_None_2; [done|].
    rewrite left_indexer_length by done. lia.
Qed.

Lemma take_right_unmatched lk rk s i k :
  NoDup rk → lk !! i = Some k → k ∉ rk →
  take_right (left_indexer lk rk) s !! i = Some NA.
Proof.
  intros Hnd Hk Hnin. unfold take_right. rewrite list_lookup_fmap.
  rewrite (left_indexer_lookup _ _ _ _ Hnd Hk).
  by rewrite (matches_from_absent _ _ _ Hnin).
Qed.

(** C3. With a right table whose key column has no duplicate, the join
    succeeds with one row per left row; it keeps the cells of the left
    columns, and the columns it takes from the right table (all but the key)
    are null at each left row whose key the right table does not have.  With
    a duplicated right key it raises [JoinCardinalityError] and returns no
    table. *)
Theorem safe_left_join_many_to_one
    (left right : DataFrame) (on : string) (suffixes : string * string)
    (lk rk : Series) :
  getitem left on = Ok lk →
  getitem right on = Ok rk →
  length lk = len left →
  (NoDup rk →
     ∃ out, joins.safe_left_join left right on many_to_one suffixes = Ok out
       ∧ len out = len left
       ∧ length (data out)
         = length (data left) + length (filter (λ p : string * Series, p.1 ≠ on) (data right))
       ∧ (∀ j c s, data left !! j = Some (c, s) → length s = len left →
            ∃ c', data out !! j = Some (c', s))
       ∧ (∀ i k, lk !! i = Some k → k ∉ rk →
            ∀ j c s, data out !! (length (data left) + j) = Some (c, s) →
              s !! i = Some NA))
  ∧ (¬ NoDup rk →
       joins.safe_left_join left right on many_to_one suffixes
       = Raise JoinCardinalityError).
Proof.
  intros Hlk Hrk Hlen. unfold joins.safe_left_join, merge_left.
  rewrite Hlk, Hrk. simpl. split.
  - intros Hnd. rewrite bool_decide_eq_true_2 by done.
    eexists. split; [reflexivity|]. simpl.
    split; [by rewrite left_indexer_length|].
    split; [unfold left_part, right_part; by rewrite length_app, !length_fmap|].
    split.
    + intros j c s Hj Hs. unfold left_part.
      rewrite lookup_app_l by (rewrite length_fmap; by eapply lookup_lt_Some).
      rewrite list_lookup_fmap, Hj. simpl.
      rewrite take_left_id by (done || lia). by eexists.
    + intros i k Hk Hnin j c s Hj. unfold left_part, right_part in Hj.
      rewrite lookup_app_r in Hj by (rewrite length_fmap; lia).
      rewrite length_fmap in Hj. replace (_ + j - _) with j in Hj by lia.
      rewrite list_lookup_fmap in Hj.
      destruct (filter _ (data right) !! j) as [[c0 s0]|]; simplify_eq/=.
      by apply take_right_unmatched with k.
  - intros Hdup. by rewrite bool_decide_eq_false_2.
Qed.

(** ** Writing *)

Lemma write_file_unlocked path f w :
  path ∉ locked w →
  write_file path f w
  = (Ok (), {| files := <[path := f]> (files w);
               locked := locked w;
               written := written w ++ [(path, f)] |}).
Proof. intros Hfree. unfold write_file. by rewrite decide_False. Qed.

Lemma write_file_locked path f w :
  path ∈ locked w → write_file path f w = (Raise SinkWriteError, w).
Proof. intros Hlocked. unfold write_file. by rewrite decide_True. Qed.

Lemma filter_fst (P : string → Prop) `{∀ c, Decision (P c)} (d : list (string * Series)) :
  (filter (λ p : string * Series, P p.1) d).*1 = filter P d.*1.
Proof.
  induction d as [|[c s] d IH]; [done|].
  rewrite fmap_cons. simpl. destruct (decide (P c)) as [HP|HP].
  - rewrite (filter_cons_True P) by done.
    rewrite (filter_cons_True (λ p : string * Series, P p.1)) by done.
    rewrite fmap_cons. simpl. f_equal. apply IH.
  - rewrite (filter_cons_False P) by done.
    rewrite (filter_cons_False (λ p : string * Series, P p.1)) by done.
    apply IH.
Qed.

Lemma filter_agree {A} (P Q : A → Prop) `{∀ x, Decision (P x)} `{∀ x, Decision (Q x)}
    (l : list A) :
  (∀ x, x ∈ l → (P x ↔ Q x)) → filter P l = filter Q l.
Proof.
  induction l as [|x l IH]; intros Hiff; [done|].
  rewrite !filter_cons.
  assert (HPQ : P x ↔ Q x) by (apply Hiff; left).
  rewrite IH by (intros y Hy; apply Hiff; by right).
  destruct (decide (P x)), (decide (Q x)); tauto || done.
Qed.

(** C10. When the three outputs can be written, the table left at
    [out_orders_clean] is the analytics table without the columns that are
    columns of the users table other than [user_id]: its columns are the
    other analytics columns in their order, each with the cells it has in
    analytics, [user_id] among them when analytics has it, and it has as many
    rows. *)
Theorem load_outputs_orders_clean
    (analytics users : DataFrame) (cfg : ETLConfig) (w : world) :
  out_users cfg ∉ locked w →
  out_analytics cfg ∉ locked w →
  out_orders_clean cfg ∉ locked w →
  ∃ oc w', etl.load_outputs analytics users cfg w = (Ok (), w')
    ∧ files w' !! out_orders_clean cfg = Some (Parquet oc)
    ∧ columns oc
      = filter (λ c, ¬ (c ∈ columns users ∧ c ≠ "user_id")) (columns analytics)
    ∧ len oc = len analytics
    ∧ (∀ c, c ∈ columns oc → getitem oc c = getitem analytics c)
    ∧ ("user_id" ∈ columns analytics → "user_id" ∈ columns oc).
Proof.
  intros Hu Ha Hoc. unfold etl.load_outputs, io.write_parquet.
  unfold mbind, IO_bind.
  rewrite write_file_unlocked by done. rewrite write_file_unlocked by done.
  rewrite write_file_unlocked by done. simpl.
  set (cs := filter (λ c, c ∈ columns analytics) (filter (λ c, c ≠ "user_id") (columns users))).
  assert (Hcs : ∀ c, c ∈ columns analytics →
                     (c ∉ cs ↔ ¬ (c ∈ columns users ∧ c ≠ "user_id"))).
  { intros c Hc. unfold cs. rewrite !list_elem_of_filter. tauto. }
  assert (Hcols : columns (drop analytics cs)
                  = filter (λ c, ¬ (c ∈ columns users ∧ c ≠ "user_id")) (columns analytics)).
  { pose proof (filter_fst (λ c, c ∉ cs) (data analytics)) as Hfst.
    cbv beta in Hfst. unfold columns at 1, drop. cbn [data].
    rewrite Hfst. by apply filter_agree. }
  eexists _, _. split; [reflexivity|]. simpl.
  split; [by rewrite lookup_insert_eq|].
  split; [exact Hcols|]. split; [done|]. split.
  - intros c Hc. rewrite Hcols in Hc. apply list_elem_of_filter in Hc as [Hkeep Hin].
    pose proof (lookup_column_filter (λ c, c ∉ cs) c (data analytics)) as Hlook.
    cbv beta in Hlook. unfold getitem, drop. cbn [data].
    rewrite Hlook; [done|]. by apply Hcs.
  - intros Hin. rewrite Hcols. apply list_elem_of_filter. split; [|done].
    intros [_ Hne]. done.
Qed.

(** ** Run metadata *)



Lemma pos_of_length {A} (x : A) (l : list A) :
  Z.pos (Pos.of_nat (length (x :: l))) = Z.of_nat (length (x :: l)).
Proof. simpl length. rewrite <- Pos.of_nat_succ, Zpos_P_of_succ_nat. lia. Qed.


Lemma write_run_meta_unlocked cfg orders_raw users analytics w :
  run_meta cfg ∉ locked w →
  ∃ m w', etl.write_run_meta cfg orders_raw users analytics w = (Ok (), w')
    ∧ files w' !! run_meta cfg = Some (Json m)
    ∧ written w' = (written w ++ [(run_meta cfg, Json m)])%list
    ∧ rows_in_orders_raw m = len orders_raw
    ∧ rows_in_users m = len users
    ∧ rows_out_analytics m = len analytics
    ∧ config m = cfg
    ∧ missing_created_at (metrics m)
      = (if decide ("created_at" ∈ columns analytics)
         then match getitem analytics "created_at" with
              | Ok s => Some (sum (isna s)) | Raise _ => None end
         else None)
    ∧ country_match_rate (metrics m)
      = (if decide ("country" ∈ columns analytics)
         then match getitem analytics "country" with
              | Ok s => Some (one_minus (mean (isna s))) | Raise _ => None end
         else None).
Proof.
  intros Hfree. unfold etl.write_run_meta, mbind, IO_bind, lift.
  destruct (decide ("created_at" ∈ columns analytics)) as [Hts|Hts];
    [destruct (getitem_columns _ _ Hts) as [ts ->]|];
  (destruct (decide ("country" ∈ columns analytics)) as [Hco|Hco];
    [destruct (getitem_columns _ _ Hco) as [co ->]|]);
  simpl; rewrite write_file_unlocked by done;
  eexists _, _; (split; [reflexivity|]); simpl;
  rewrite lookup_insert_eq; repeat split; reflexivity.
Qed.

Lemma write_run_meta_locked cfg orders_raw users analytics w :
  run_meta cfg ∈ locked w →
  etl.write_run_meta cfg orders_raw users analytics w = (Raise SinkWriteError, w).
Proof.
  intros Hlocked. unfold etl.write_run_meta, mbind, IO_bind, lift.
  destruct (decide ("created_at" ∈ columns analytics)) as [Hts|Hts];
    [destruct (getitem_columns _ _ Hts) as [ts ->]|];
  (destruct (decide ("country" ∈ columns analytics)) as [Hco|Hco];
    [destruct (getitem_columns _ _ Hco) as [co ->]|]);
  simpl; by rewrite write_file_locked.
Qed.




(** ** Order of the run *)

Lemma load_inputs_reads cfg w :
  (etl.load_inputs cfg w).2 = w.
Proof.
  unfold etl.load_inputs, mbind, IO_bind, io.read_users_csv, io.read_orders_csv.
  destruct (files w !! raw_orders cfg) as [[]|];
    destruct (files w !! raw_users cfg) as [[]|]; reflexivity.
Qed.

(** The writes of [load_outputs]: a prefix of its three tables, all three
    when it returns. *)

Ltac no_metadata :=
  let Hin := fresh "Hin" in
  intros ? ? Hin;
  repeat (apply elem_of_cons in Hin as [Hin|Hin]; [discriminate Hin|]);
  by apply elem_of_nil in Hin.

(** The writes of [load_outputs]: a prefix of its three tables, all three
    when it returns. *)
Lemma load_outputs_trace analytics users cfg w :
  ∃ t, written (etl.load_outputs analytics users cfg w).2 = (written w ++ t)%list
    ∧ (∀ p m, (p, Json m) ∉ t)
    ∧ ((etl.load_outputs analytics users cfg w).1 = Ok () →
       ∃ oc, t = [(out_users cfg, Parquet users);
                  (out_analytics cfg, Parquet analytics);
                  (out_orders_clean cfg, Parquet oc)]).
Proof.
  unfold etl.load_outputs, io.write_parquet, mbind, IO_bind.
  destruct (decide (out_users cfg ∈ locked w)) as [H1|H1].
  { rewrite write_file_locked by done. exists []. simpl.
    rewrite app_nil_r. repeat split; [no_metadata|done]. }
  rewrite write_file_unlocked by done.
  destruct (decide (out_analytics cfg ∈ locked w)) as [H2|H2].
  { rewrite write_file_locked by done. eexists [_]. simpl.
    repeat split; [no_metadata|done]. }
  rewrite write_file_unlocked by done.
  destruct (decide (out_orders_clean cfg ∈ locked w)) as [H3|H3].
  { rewrite write_file_locked by done. eexists [_; _]. simpl.
    rewrite <- app_assoc. repeat split; [no_metadata|done]. }
  rewrite write_file_unlocked by done. eexists [_; _; _]. simpl.
  rewrite <- !app_assoc. repeat split; [no_metadata|by eexists].
Qed.

Lemma run_etl_stages `{BootcampData} cfg w :
  etl.run_etl cfg w
  = match etl.load_inputs cfg w with
    | (Raise e, w0) => (Raise e, w0)
    | (Ok inputs, w0) =>
        match etl.transform inputs.1 inputs.2 with
        | Raise e => (Raise e, w0)
        | Ok analytics =>
            match etl.load_outputs analytics inputs.2 cfg w0 with
            | (Raise e, w1) => (Raise e, w1)
            | (Ok _, w1) => etl.write_run_meta cfg inputs.1 inputs.2 analytics w1
            end
        end
    end.
Proof.
  unfold etl.run_etl, mbind at 1, IO_bind at 1.
  destruct (etl.load_inputs cfg w) as [[inputs|e] w0]; [|done].
  unfold mbind at 1, IO_bind at 1, lift.
  destruct (etl.transform _ _) as [analytics|e]; [|done].
  unfold mbind at 1, IO_bind at 1.
  by destruct (etl.load_outputs _ _ _ _) as [[[]|e] w1].
Qed.

(** C6. A run that fails while reading its inputs or in [transform] (all
    validation is there) ends with that error and the world untouched.
    When [load_outputs] raises, the run ends with its error where
    [load_outputs] left the world.  The run appends its writes to the log: a
    metadata write is the fourth and last of them, after the users, analytics
    and orders-clean tables, and a run that returns did all four. *)
Theorem run_etl_write_order `{BootcampData} (cfg : ETLConfig) (w : world) :
  (∀ e, (etl.load_inputs cfg w).1 = Raise e → etl.run_etl cfg w = (Raise e, w))
  ∧ (∀ orders_raw users e,
       (etl.load_inputs cfg w).1 = Ok (orders_raw, users) →
       etl.transform orders_raw users = Raise e →
       etl.run_etl cfg w = (Raise e, w))
  ∧ (∀ orders_raw users analytics e,
       (etl.load_inputs cfg w).1 = Ok (orders_raw, users) →
       etl.transform orders_raw users = Ok analytics →
       (etl.load_outputs analytics users cfg w).1 = Raise e →
       etl.run_etl cfg w = (Raise e, (etl.load_outputs analytics users cfg w).2))
  ∧ ∃ t, written (etl.run_etl cfg w).2 = (written w ++ t)%list
      ∧ (∀ i p m, t !! i = Some (p, Json m) →
           ∃ users analytics oc,
             t = [(out_users cfg, Parquet users);
                  (out_analytics cfg, Parquet analytics);
                  (out_orders_clean cfg, Parquet oc);
                  (run_meta cfg, Json m)])
      ∧ ((etl.run_etl cfg w).1 = Ok () → length t = 4).
Proof.
  pose proof (load_inputs_reads cfg w) as Hread.
  rewrite run_etl_stages.
  destruct (etl.load_inputs cfg w) as [[[orders_raw users]|e0] w0] eqn:Hin;
    simpl in Hread; subst w0; simpl.
  2: { repeat split; try (intros; congruence).
       exists []. rewrite app_nil_r. split; [done|]. split; [|done].
       intros i p m Hi. done. }
  destruct (etl.transform orders_raw users) as [analytics|e1] eqn:Htr; simpl.
  2: { repeat split; try (intros; congruence).
       exists []. rewrite app_nil_r. split; [done|]. split; [|done].
       intros i p m Hi. done. }
  split; [intros; congruence|]. split; [intros; congruence|].
  split.
  { intros o u a e Ho Ha He. simplify_eq.
    assert (a = analytics) as -> by congruence.
    destruct (etl.load_outputs analytics u cfg w) as [[[]|e2] w1]; simpl in *; congruence. }
  destruct (load_outputs_trace analytics users cfg w) as (t & Ht & Hnometa & Hall).
  destruct (etl.load_outputs analytics users cfg w) as [[[]|e2] w1] eqn:Hload; simpl in *.
  - destruct (Hall eq_refl) as [oc ->].
    destruct (decide (run_meta cfg ∈ locked w1)) as [Hl|Hl].
    + rewrite write_run_meta_locked by done. simpl.
      eexists. split; [exact Ht|]. split; [|done].
      intros i p m Hi. apply list_elem_of_lookup_2 in Hi. by apply Hnometa in Hi.
    + destruct (write_run_meta_unlocked cfg orders_raw users analytics w1 Hl)
        as (m & w' & -> & _ & Hw' & _). simpl.
      exists [(out_users cfg, Parquet users); (out_analytics cfg, Parquet analytics);
              (out_orders_clean cfg, Parquet oc); (run_meta cfg, Json m)].
      split; [by rewrite Hw', Ht, <- app_assoc|]. split; [|done].
      intros i p m' Hi. exists users, analytics, oc.
      destruct i as [|[|[|[|i]]]]; simplify_eq/=; done.
  - exists t. split; [done|]. split; [|done].
    intros i p m Hi. apply list_elem_of_lookup_2 in Hi. by apply Hnometa in Hi.
Qed.

(** * Worked inputs *)

Ltac compute_eq := vm_compute; reflexivity.

Lemma nothing_locked (orders : DataFrame) (path : string) :
  path ∉ locked (fixture.world_of orders).
Proof. apply not_elem_of_empty. Qed.

Lemma users_key_unique : NoDup [Str "u1"; Str "u2"].
Proof. by apply (bool_decide_unpack _). Qed.


Lemma safe_left_join_many_to_one_witness :
  getitem fixture.orders_outlier "user_id"
  = Ok [Str "u1"; Str "u2"; Str "u1"; Str "u1"; Str "u9"]
  ∧ getitem fixture.users "user_id" = Ok [Str "u1"; Str "u2"]
  ∧ NoDup [Str "u1"; Str "u2"]
  ∧ ∃ out, joins.safe_left_join fixture.orders_outlier fixture.users "user_id"
             many_to_one ("", "_user") = Ok out
      ∧ len out = 5
      ∧ ∀ j c s, data out !! (6 + j) = Some (c, s) → s !! 4 = Some NA.
Proof.
  split; [reflexivity|]. split; [reflexivity|]. split; [exact users_key_unique|].
  destruct (safe_left_join_many_to_one fixture.orders_outlier fixture.users "user_id"
              ("", "_user") [Str "u1"; Str "u2"; Str "u1"; Str "u1"; Str "u9"]
              [Str "u1"; Str "u2"] eq_refl eq_refl eq_refl) as [Hunique _].
  destruct (Hunique users_key_unique) as (out & Hjoin & Hlen & _ & _ & Hnull).
  exists out. split; [exact Hjoin|]. split; [exact Hlen|].
  apply (Hnull 4 (Str "u9")); [reflexivity|].
  by apply (bool_decide_unpack _).
Defined.

Lemma load_outputs_orders_clean_witness :
  ∃ oc w', etl.load_outputs fixture.analytics_four fixture.users fixture.cfg
             (fixture.world_of fixture.orders_outlier) = (Ok (), w')
    ∧ files w' !! out_orders_clean fixture.cfg = Some (Parquet oc)
    ∧ columns oc = ["order_id"; "created_at"].
Proof.
  destruct (load_outputs_orders_clean fixture.analytics_four fixture.users fixture.cfg
              (fixture.world_of fixture.orders_outlier)
              (nothing_locked _ _) (nothing_locked _ _) (nothing_locked _ _))
    as (oc & w' & Hrun & Hfile & Hcols & _).
  exists oc, w'. split; [exact Hrun|]. split; [exact Hfile|].
  rewrite Hcols. compute_eq.
Defined.



Lemma run_etl_write_order_witness :
  (@etl.run_etl fixture.lib fixture.cfg (fixture.world_of fixture.orders_outlier)).1 = Ok ()
  ∧ ∃ t, written (@etl.run_etl fixture.lib fixture.cfg
                    (fixture.world_of fixture.orders_outlier)).2
         = (written (fixture.world_of fixture.orders_outlier) ++ t)%list
      ∧ length t = 4.
Proof.
  split; [compute_eq|].
  destruct (@run_etl_write_order fixture.lib fixture.cfg
              (fixture.world_of fixture.orders_outlier))
    as (_ & _ & _ & t & Ht & _ & Hlen).
  exists t. split; [exact Ht|]. apply Hlen. compute_eq.
Defined.


(** A joined table that passes the check of the day-3 script has the row
    count of the orders, whatever the joiner does. *)
Lemma join_users_row_count `{BootcampData} orders_t users joined :
  run_day3_build_analytics.join_users orders_t users = Ok joined →
  len joined = len orders_t.
Proof.
  unfold run_day3_build_analytics.join_users, mbind, result_bind.
  destruct (safe_left_join _ _ _ _ _) as [j|e]; [|done].
  destruct (decide (len j ≠ len orders_t)) as [Hne|Heq]; [done|].
  intros [= <-]. by destruct (decide (len j = len orders_t)).
Qed.

(** C1. With a joiner that returns every row twice, [transform] returns a
    table of two rows for one order, where the join of the day-3 script
    raises [AssertionError]: [transform] does not compare the row counts. *)
Theorem transform_keeps_exploded_join :
  len fixture.orders_negative = 1
  ∧ (∃ analytics,
       @etl.transform fixture.exploding fixture.orders_negative fixture.users
       = Ok analytics
       ∧ len analytics = 2)
  ∧ @run_day3_build_analytics.join_users fixture.exploding
      fixture.orders_negative fixture.users
    = Raise (AssertionError "Row count changed on left join (join explosion?)").
Proof.
  split; [reflexivity|]. split; [|compute_eq].
  eexists. split; [compute_eq|reflexivity].
Qed.

(** C2. For an order of amount -5, [run_etl] returns and the four files are
    written, the analytics table with the amount -5 in it; the day-2 script
    on the same input raises [RangeError] after it wrote its missingness
    report and before it writes a table. *)
Theorem run_etl_accepts_negative_amount :
  getitem fixture.orders_negative "amount" = Ok [Num (-5)]
  ∧ (@etl.run_etl fixture.lib fixture.cfg (fixture.world_of fixture.orders_negative)).1
    = Ok ()
  ∧ (written (@etl.run_etl fixture.lib fixture.cfg
                (fixture.world_of fixture.orders_negative)).2).*1
    = [ "repo/data/processed/users.parquet";
        "repo/data/processed/analytics_table.parquet";
        "repo/data/processed/orders_clean.parquet";
        "repo/data/processed/_run_meta.json" ]
  ∧ (∃ analytics,
       files (@etl.run_etl fixture.lib fixture.cfg
                (fixture.world_of fixture.orders_negative)).2
         !! "repo/data/processed/analytics_table.parquet" = Some (Parquet analytics)
       ∧ getitem analytics "amount" = Ok [Num (-5)])
  ∧ (@run_day2_clean.main fixture.lib "repo"
       (fixture.world_of fixture.orders_negative)).1 = Raise RangeError
  ∧ (written (@run_day2_clean.main fixture.lib "repo"
                (fixture.world_of fixture.orders_negative)).2).*1
    = [ "repo/reports/missingness_orders.csv" ].
Proof.
  split; [reflexivity|]. split; [compute_eq|]. split; [compute_eq|].
  split; [|split; compute_eq].
  eexists. split; compute_eq.
Qed.

(** C4. On amounts 10, 11, 12, 13 and 1000 the bounds are 8 and 16.  The
    table of [transform] has the last amount capped to 16 and no row
    flagged: the flag is computed from the capped column.  The table of the
    day-3 script keeps the amounts, has the capped ones in [amount_winsor],
    and flags the last row. *)
Theorem transform_flags_capped_amount :
  transforms.iqr_bounds [Num 10; Num 11; Num 12; Num 13; Num 1000] transforms.default_k
  = Some (8%Q, 16%Q)
  ∧ (∃ analytics,
       @etl.transform fixture.lib fixture.orders_outlier fixture.users = Ok analytics
       ∧ getitem analytics "amount" = Ok [Num 10; Num 11; Num 12; Num 13; Num 16]
       ∧ getitem analytics "amount_outlier"
         = Ok [Bool false; Bool false; Bool false; Bool false; Bool false])
  ∧ (∃ joined,
       files (@run_day3_build_analytics.main fixture.lib fixture.revenue_by_country
                "repo" fixture.world_day3).2
         !! "repo/data/processed/analytics_table.parquet" = Some (Parquet joined)
       ∧ getitem joined "amount" = Ok [Num 10; Num 11; Num 12; Num 13; Num 1000]
       ∧ getitem joined "amount_winsor" = Ok [Num 10; Num 11; Num 12; Num 13; Num 16]
       ∧ getitem joined "amount_outlier"
         = Ok [Bool false; Bool false; Bool false; Bool false; Bool true]).
Proof.
  split; [compute_eq|].
  split; eexists; (split; [compute_eq|]); repeat split; compute_eq.
Qed.

(** * Further properties *)

(** ** Write sequences *)

Lemma replay_lookup ws m path :
  replay ws m !! path
  = match last_write path ws with Some f => Some f | None => m !! path end.
Proof.
  revert m. induction ws as [|x ws IH]; intros m; [done|].
  change (replay (x :: ws) m) with (replay ws (<[x.1 := x.2]> m)).
  rewrite IH. simpl. destruct (last_write path ws); [done|].
  rewrite lookup_insert. destruct (decide (x.1 = path)); done.
Qed.

Lemma last_write_absent path ws :
  path ∉ ws.*1 → last_write path ws = None.
Proof.
  induction ws as [|x ws IH]; [done|]. rewrite fmap_cons.
  intros Hnin. apply not_elem_of_cons in Hnin as [Hne Hnin]. simpl.
  rewrite IH by done. by rewrite decide_False.
Qed.

Lemma replay_idempotent ws m :
  replay ws (replay ws m) = replay ws m.
Proof.
  apply map_eq. intros path. rewrite !replay_lookup.
  by destruct (last_write path ws).
Qed.

Lemma granted_prefix lock ws :
  ∃ rest, ws = (granted lock ws ++ rest)%list.
Proof.
  induction ws as [|x ws [rest IH]]; simpl; [by exists []|].
  destruct (decide (x.1 ∈ lock)); [by eexists|].
  exists rest. simpl. by rewrite <- IH.
Qed.

Lemma granted_all lock ws :
  length (granted lock ws) = length ws → granted lock ws = ws.
Proof.
  intros Hlen. destruct (granted_prefix lock ws) as [rest Heq].
  rewrite Heq in Hlen at 2. rewrite length_app in Hlen.
  destruct rest; [|simpl in Hlen; lia]. by rewrite app_nil_r in Heq.
Qed.

Lemma granted_unlocked lock ws :
  Forall (λ x : string * file, x.1 ∉ lock) ws → granted lock ws = ws.
Proof.
  induction 1 as [|x ws Hx _ IH]; simpl; [done|].
  by rewrite decide_False, IH.
Qed.

(** What a sequence of writes returns and leaves. *)
Lemma write_all_outcome ws w :
  write_all ws w
  = (if decide (length (granted (locked w) ws) = length ws)
     then Ok () else Raise SinkWriteError,
     {| files := replay (granted (locked w) ws) (files w);
        locked := locked w;
        written := written w ++ granted (locked w) ws |}).
Proof.
  revert w. induction ws as [|[p f] ws IH]; intros w.
  - destruct w. simpl. by rewrite app_nil_r.
  - simpl. unfold mbind, IO_bind. destruct (decide (p ∈ locked w)) as [Hl|Hl].
    + rewrite write_file_locked by done. destruct w. simpl. by rewrite app_nil_r.
    + rewrite write_file_unlocked by done. rewrite IH. simpl.
      rewrite <- app_assoc. simpl.
      destruct (decide (length (granted (locked w) ws) = length ws));
        destruct (decide (S (length (granted (locked w) ws)) = S (length ws)));
        first [exfalso; lia | reflexivity].
Qed.

Lemma write_all_app ws1 ws2 w :
  write_all (ws1 ++ ws2) w = (write_all ws1 ;; write_all ws2) w.
Proof.
  revert w. induction ws1 as [|x ws1 IH]; intros w; [done|].
  simpl. unfold mbind, IO_bind in *.
  destruct (write_file x.1 x.2 w) as [[[]|e] w1]; [apply IH|done].
Qed.

Lemma write_all_idempotent ws w :
  (write_all ws (write_all ws w).2).1 = (write_all ws w).1
  ∧ files (write_all ws (write_all ws w).2).2 = files (write_all ws w).2.
Proof.
  rewrite !write_all_outcome. simpl. split; [done|]. apply replay_idempotent.
Qed.

(** The writes of [load_outputs] and of [write_run_meta] as sequences. *)
Lemma load_outputs_writes analytics users cfg w :
  etl.load_outputs analytics users cfg w
  = write_all
      [ (out_users cfg, Parquet users);
        (out_analytics cfg, Parquet analytics);
        (out_orders_clean cfg, Parquet (orders_clean_table analytics users)) ] w.
Proof.
  unfold etl.load_outputs, io.write_parquet. simpl. unfold mbind, IO_bind.
  destruct (write_file (out_users cfg) _ w) as [[[]|e1] w1]; [|done].
  destruct (write_file (out_analytics cfg) _ w1) as [[[]|e2] w2]; [|done].
  by destruct (write_file (out_orders_clean cfg) _ w2) as [[[]|e3] w3].
Qed.

Lemma write_all_one path f w :
  write_file path f w = write_all [(path, f)] w.
Proof.
  simpl. unfold mbind, IO_bind. by destruct (write_file path f w) as [[[]|e] w1].
Qed.

Lemma write_run_meta_writes cfg orders_raw users analytics :
  ∃ m, (∀ w, etl.write_run_meta cfg orders_raw users analytics w
             = write_all [(run_meta cfg, Json m)] w)
    ∧ rows_in_orders_raw m = len orders_raw
    ∧ rows_in_users m = len users
    ∧ rows_out_analytics m = len analytics
    ∧ config m = cfg
    ∧ (∀ s, getitem analytics "created_at" = Ok s →
         missing_created_at (metrics m) = Some (sum (isna s)))
    ∧ (∀ s, getitem analytics "country" = Ok s →
         country_match_rate (metrics m) = Some (one_minus (mean (isna s))))
    ∧ ("created_at" ∉ columns analytics → missing_created_at (metrics m) = None)
    ∧ ("country" ∉ columns analytics → country_match_rate (metrics m) = None).
Proof.
  unfold etl.write_run_meta, mbind, IO_bind, lift.
  destruct (decide ("created_at" ∈ columns analytics)) as [Hts|Hts];
    [destruct (getitem_columns _ _ Hts) as [ts Ets]; rewrite Ets|];
  (destruct (decide ("country" ∈ columns analytics)) as [Hco|Hco];
    [destruct (getitem_columns _ _ Hco) as [co Eco]; rewrite Eco|]);
  simpl; eexists; (split; [intros w; apply write_all_one|]); simpl;
  repeat split; try done;
  try (intros s Hs; first [congruence | apply getitem_Ok_columns in Hs; done]).
Qed.

Lemma write_all_frame ws w path :
  path ∉ ws.*1 → files (write_all ws w).2 !! path = files w !! path.
Proof.
  intros Hnin. rewrite write_all_outcome. simpl. rewrite replay_lookup.
  rewrite last_write_absent; [done|].
  destruct (granted_prefix (locked w) ws) as [rest Heq].
  intros Hin. apply Hnin. rewrite Heq, fmap_app. apply elem_of_app. by left.
Qed.

Lemma write_all_locked ws w :
  locked (write_all ws w).2 = locked w.
Proof. by rewrite write_all_outcome. Qed.


Lemma write_all_ok ws w :
  (write_all ws w).1 = Ok () →
  files (write_all ws w).2 = replay ws (files w)
  ∧ written (write_all ws w).2 = (written w ++ ws)%list.
Proof.
  rewrite write_all_outcome. simpl.
  destruct (decide (length (granted (locked w) ws) = length ws)) as [Hall|]; [|done].
  by rewrite (granted_all _ _ Hall).
Qed.

(** ** Reading the inputs *)

Lemma load_inputs_outcome cfg w :
  (etl.load_inputs cfg w).1
  = match files w !! raw_orders cfg, files w !! raw_users cfg with
    | Some (Csv orders), Some (Csv users) => Ok (orders, users)
    | _, _ => Raise SourceReadError
    end.
Proof.
  unfold etl.load_inputs, mbind, IO_bind, io.read_users_csv, io.read_orders_csv.
  destruct (files w !! raw_orders cfg) as [[]|];
    destruct (files w !! raw_users cfg) as [[]|]; reflexivity.
Qed.

(** ** The run as a sequence of writes *)

Lemma run_etl_writes `{BootcampData} cfg w orders_raw users analytics m :
  (etl.load_inputs cfg w).1 = Ok (orders_raw, users) →
  etl.transform orders_raw users = Ok analytics →
  (∀ w', etl.write_run_meta cfg orders_raw users analytics w'
         = write_all [(run_meta cfg, Json m)] w') →
  etl.run_etl cfg w
  = write_all [ (out_users cfg, Parquet users);
                (out_analytics cfg, Parquet analytics);
                (out_orders_clean cfg, Parquet (orders_clean_table analytics users));
                (run_meta cfg, Json m) ] w.
Proof.
  intros Hin Htr Hmeta. rewrite run_etl_stages.
  pose proof (load_inputs_reads cfg w) as Hread.
  destruct (etl.load_inputs cfg w) as [r w0]. simpl in Hin, Hread. subst r w0.
  cbv beta iota. cbn [fst snd].
  rewrite Htr.
  symmetry. etrans; [apply (write_all_app [_; _; _] [_])|].
  unfold mbind at 1, IO_bind at 1. rewrite <- load_outputs_writes.
  destruct (etl.load_outputs analytics users cfg w) as [[[]|e] w1];
    [symmetry; apply Hmeta|done].
Qed.

Lemma run_etl_cases `{BootcampData} cfg w :
  (∃ e, etl.run_etl cfg w = (Raise e, w)
        ∧ ((etl.load_inputs cfg w).1 = Raise e ∧ e = SourceReadError
           ∨ ∃ orders_raw users,
               (etl.load_inputs cfg w).1 = Ok (orders_raw, users)
               ∧ etl.transform orders_raw users = Raise e))
  ∨ ∃ orders_raw users analytics m,
      (etl.load_inputs cfg w).1 = Ok (orders_raw, users)
      ∧ etl.transform orders_raw users = Ok analytics
      ∧ (∀ w', etl.write_run_meta cfg orders_raw users analytics w'
               = write_all [(run_meta cfg, Json m)] w')
      ∧ rows_in_orders_raw m = len orders_raw
      ∧ rows_in_users m = len users
      ∧ rows_out_analytics m = len analytics
      ∧ config m = cfg
      ∧ etl.run_etl cfg w
        = write_all [ (out_users cfg, Parquet users);
                      (out_analytics cfg, Parquet analytics);
                      (out_orders_clean cfg,
                       Parquet (orders_clean_table analytics users));
                      (run_meta cfg, Json m) ] w.
Proof.
  destruct ((etl.load_inputs cfg w).1) as [[orders_raw users]|e] eqn:Hin.
  - destruct (etl.transform orders_raw users) as [analytics|e] eqn:Htr.
    + right.
      destruct (write_run_meta_writes cfg orders_raw users analytics)
        as (m & Hmeta & Ho & Hu & Ha & Hcfg & _).
      pose proof (run_etl_writes cfg w _ _ _ m Hin Htr Hmeta) as Hrun.
      by exists orders_raw, users, analytics, m.
    + left. exists e. split; [|right; by eexists _, _].
      rewrite run_etl_stages. pose proof (load_inputs_reads cfg w) as Hread.
      destruct (etl.load_inputs cfg w) as [r w0]. simpl in Hin, Hread. subst r w0.
  cbv beta iota. cbn [fst snd].
      by rewrite Htr.
  - left. exists e.
    assert (e = SourceReadError) as ->.
    { rewrite load_inputs_outcome in Hin.
      destruct (files w !! raw_orders cfg) as [[]|];
        destruct (files w !! raw_users cfg) as [[]|]; congruence. }
    split; [|by left].
    rewrite run_etl_stages. pose proof (load_inputs_reads cfg w) as Hread.
    destruct (etl.load_inputs cfg w) as [r w0]. simpl in Hin, Hread. by subst r w0.
Qed.

Lemma run_etl_untouched `{BootcampData} cfg w path :
  path ∉ outputs cfg → files (etl.run_etl cfg w).2 !! path = files w !! path.
Proof.
  intros Hout.
  destruct (run_etl_cases cfg w)
    as [(e & -> & _)|(o & u & a & m & _ & _ & _ & _ & _ & _ & _ & ->)]; [done|].
  by apply write_all_frame.
Qed.

Lemma run_etl_locked `{BootcampData} cfg w :
  locked (etl.run_etl cfg w).2 = locked w.
Proof.
  destruct (run_etl_cases cfg w)
    as [(e & -> & _)|(o & u & a & m & _ & _ & _ & _ & _ & _ & _ & ->)]; [done|].
  apply write_all_locked.
Qed.

(** ** etl.transform *)

(** X1. A table returned by [transform] comes from inputs that passed the
    five checks: the required columns of both tables, both tables non-empty,
    and the users key unique. *)
Theorem transform_ok_checked `{BootcampData} (orders_raw users analytics : DataFrame) :
  etl.transform orders_raw users = Ok analytics →
  require_columns orders_raw
    ["order_id"; "user_id"; "amount"; "quantity"; "created_at"; "status"] = Ok ()
  ∧ require_columns users ["user_id"; "country"; "signup_date"] = Ok ()
  ∧ assert_non_empty orders_raw "orders_raw" = Ok ()
  ∧ assert_non_empty users "users" = Ok ()
  ∧ assert_unique_key users "user_id" = Ok ().
Proof.
  unfold etl.transform, mbind, result_bind.
  destruct (require_columns orders_raw _) as [[]|]; [|done].
  destruct (require_columns users _) as [[]|]; [|done].
  destruct (assert_non_empty orders_raw _) as [[]|]; [|done].
  destruct (assert_non_empty users _) as [[]|]; [|done].
  destruct (assert_unique_key users _) as [[]|]; done.
Qed.

Lemma transform_ok_checked_witness :
  ∃ analytics,
    @etl.transform fixture.lib fixture.orders_outlier fixture.users = Ok analytics
    ∧ quality.assert_unique_key fixture.users "user_id" = Ok ().
Proof.
  eexists. split; [compute_eq|].
  eapply (@transform_ok_checked fixture.lib fixture.orders_outlier fixture.users).
  compute_eq.
Defined.

(** ** etl.run_etl *)



(** X3. [run_etl] changes no file but those at its four output paths, the
    raw inputs among the files it leaves alone when they are elsewhere, and
    it does not change which paths refuse a write. *)
Theorem run_etl_frame `{BootcampData} (cfg : ETLConfig) (w : world) (path : string) :
  path ∉ outputs cfg →
  files (etl.run_etl cfg w).2 !! path = files w !! path
  ∧ locked (etl.run_etl cfg w).2 = locked w.
Proof.
  intros Hout. split; [by apply run_etl_untouched|apply run_etl_locked].
Qed.

Lemma run_etl_frame_witness :
  ("repo/data/raw/orders.csv" ∉ outputs fixture.cfg)
  ∧ files (@etl.run_etl fixture.lib fixture.cfg
             (fixture.world_of fixture.orders_outlier)).2 !! "repo/data/raw/orders.csv"
    = Some (Csv fixture.orders_outlier).
Proof.
  assert (Hout : "repo/data/raw/orders.csv" ∉ outputs fixture.cfg).
  { by apply (bool_decide_unpack _). }
  split; [exact Hout|].
  destruct (@run_etl_frame fixture.lib fixture.cfg
              (fixture.world_of fixture.orders_outlier) _ Hout) as [-> _].
  compute_eq.
Defined.

(** X4. After a run that returns, the metadata file holds the row counts of
    the two inputs read and of the table [transform] made of them, with the
    configuration; that table is the one at [out_analytics] and the users
    read are at [out_users], when no later write of the run went to the same
    path. *)
Theorem run_etl_ok `{BootcampData} (cfg : ETLConfig) (w : world) :
  (etl.run_etl cfg w).1 = Ok () →
  ∃ orders_raw users analytics m,
    (etl.load_inputs cfg w).1 = Ok (orders_raw, users)
    ∧ etl.transform orders_raw users = Ok analytics
    ∧ files (etl.run_etl cfg w).2 !! run_meta cfg = Some (Json m)
    ∧ rows_in_orders_raw m = len orders_raw
    ∧ rows_in_users m = len users
    ∧ rows_out_analytics m = len analytics
    ∧ config m = cfg
    ∧ (out_analytics cfg ≠ out_orders_clean cfg → out_analytics cfg ≠ run_meta cfg →
       files (etl.run_etl cfg w).2 !! out_analytics cfg = Some (Parquet analytics))
    ∧ (out_users cfg ≠ out_analytics cfg → out_users cfg ≠ out_orders_clean cfg →
       out_users cfg ≠ run_meta cfg →
       files (etl.run_etl cfg w).2 !! out_users cfg = Some (Parquet users)).
Proof.
  intros Hok.
  destruct (run_etl_cases cfg w)
    as [(e & Heq & _)|(o & u & a & m & Hin & Htr & _ & Ho & Hu & Ha & Hcfg & Heq)];
    rewrite Heq in Hok |- *; [done|].
  destruct (write_all_ok _ _ Hok) as [-> _].
  exists o, u, a, m.
  split; [done|]. split; [done|]. split.
  { rewrite replay_lookup. simpl. by rewrite decide_True. }
  split; [done|]. split; [done|]. split; [done|]. split; [done|]. split.
  - intros H1 H2. rewrite replay_lookup. simpl.
    rewrite (decide_False (P := run_meta cfg = _)) by done.
    rewrite (decide_False (P := out_orders_clean cfg = _)) by done.
    by rewrite decide_True.
  - intros H1 H2 H3. rewrite replay_lookup. simpl.
    rewrite (decide_False (P := run_meta cfg = _)) by done.
    rewrite (decide_False (P := out_orders_clean cfg = _)) by done.
    rewrite (decide_False (P := out_analytics cfg = _)) by done.
    by rewrite decide_True.
Qed.

Lemma run_etl_ok_witness :
  (@etl.run_etl fixture.lib fixture.cfg (fixture.world_of fixture.orders_outlier)).1 = Ok ()
  ∧ ∃ analytics m,
      files (@etl.run_etl fixture.lib fixture.cfg
               (fixture.world_of fixture.orders_outlier)).2 !! run_meta fixture.cfg
      = Some (Json m)
      ∧ files (@etl.run_etl fixture.lib fixture.cfg
                 (fixture.world_of fixture.orders_outlier)).2 !! out_analytics fixture.cfg
        = Some (Parquet analytics)
      ∧ rows_out_analytics m = len analytics.
Proof.
  split; [compute_eq|].
  destruct (@run_etl_ok fixture.lib fixture.cfg (fixture.world_of fixture.orders_outlier))
    as (o & u & a & m & _ & _ & Hmeta & _ & _ & Ha & _ & Hanalytics & _); [compute_eq|].
  exists a, m. split; [exact Hmeta|]. split; [|exact Ha].
  apply Hanalytics; by apply (bool_decide_unpack _).
Defined.

(** X5. When the raw inputs are not at an output path, running [run_etl]
    again on the world a run left returns the same result and leaves the
    same files. *)
Theorem run_etl_rerun `{BootcampData} (cfg : ETLConfig) (w : world) :
  raw_orders cfg ∉ outputs cfg →
  raw_users cfg ∉ outputs cfg →
  (etl.run_etl cfg (etl.run_etl cfg w).2).1 = (etl.run_etl cfg w).1
  ∧ files (etl.run_etl cfg (etl.run_etl cfg w).2).2 = files (etl.run_etl cfg w).2.
Proof.
  intros Horders Husers.
  destruct (run_etl_cases cfg w)
    as [(e & Heq & _)|(o & u & a & m & Hin & Htr & Hmeta & _ & _ & _ & _ & Heq)].
  { rewrite Heq. simpl. by rewrite Heq. }
  assert (Hin' : (etl.load_inputs cfg (etl.run_etl cfg w).2).1 = Ok (o, u)).
  { rewrite load_inputs_outcome in Hin |- *.
    by rewrite !run_etl_untouched. }
  rewrite (run_etl_writes cfg _ _ _ _ m Hin' Htr Hmeta).
  rewrite Heq. apply write_all_idempotent.
Qed.

Lemma run_etl_rerun_witness :
  (raw_orders fixture.cfg ∉ outputs fixture.cfg)
  ∧ (raw_users fixture.cfg ∉ outputs fixture.cfg)
  ∧ files (@etl.run_etl fixture.lib fixture.cfg
             (@etl.run_etl fixture.lib fixture.cfg
                (fixture.world_of fixture.orders_outlier)).2).2
    = files (@etl.run_etl fixture.lib fixture.cfg
               (fixture.world_of fixture.orders_outlier)).2.
Proof.
  assert (Ho : raw_orders fixture.cfg ∉ outputs fixture.cfg)
    by (by apply (bool_decide_unpack _)).
  assert (Hu : raw_users fixture.cfg ∉ outputs fixture.cfg)
    by (by apply (bool_decide_unpack _)).
  split; [exact Ho|]. split; [exact Hu|].
  apply (@run_etl_rerun fixture.lib fixture.cfg
           (fixture.world_of fixture.orders_outlier) Ho Hu).
Defined.

(** ** etl.load_outputs *)

(** X6. [load_outputs] can be run again: a second run on the world the first
    one left returns what the first returned and leaves the same files. *)
Theorem load_outputs_idempotent
    (analytics users : DataFrame) (cfg : ETLConfig) (w : world) :
  (etl.load_outputs analytics users cfg
     (etl.load_outputs analytics users cfg w).2).1
  = (etl.load_outputs analytics users cfg w).1
  ∧ files (etl.load_outputs analytics users cfg
             (etl.load_outputs analytics users cfg w).2).2
    = files (etl.load_outputs analytics users cfg w).2.
Proof. rewrite !load_outputs_writes. apply write_all_idempotent. Qed.

(** X7. When the three writes are accepted, [load_outputs] returns after
    writing the users table, the analytics table and the orders-only table,
    in this order; the users and the analytics tables are stored as they
    were given, unless a later table went to the same path, and every other
    file is as before. *)
Theorem load_outputs_tables
    (analytics users : DataFrame) (cfg : ETLConfig) (w : world) :
  out_users cfg ∉ locked w →
  out_analytics cfg ∉ locked w →
  out_orders_clean cfg ∉ locked w →
  (etl.load_outputs analytics users cfg w).1 = Ok ()
  ∧ (written (etl.load_outputs analytics users cfg w).2).*1
    = ((written w).*1 ++ [out_users cfg; out_analytics cfg; out_orders_clean cfg])%list
  ∧ (out_analytics cfg ≠ out_orders_clean cfg →
     files (etl.load_outputs analytics users cfg w).2 !! out_analytics cfg
     = Some (Parquet analytics))
  ∧ (out_users cfg ≠ out_analytics cfg → out_users cfg ≠ out_orders_clean cfg →
     files (etl.load_outputs analytics users cfg w).2 !! out_users cfg
     = Some (Parquet users))
  ∧ (∀ path, path ≠ out_users cfg → path ≠ out_analytics cfg →
       path ≠ out_orders_clean cfg →
       files (etl.load_outputs analytics users cfg w).2 !! path = files w !! path).
Proof.
  intros Hu Ha Hoc. rewrite load_outputs_writes, write_all_outcome.
  rewrite granted_unlocked by (repeat constructor; done). simpl.
  split; [done|]. split; [by rewrite fmap_app|].
  change (<[?a:=?x]> (<[?b:=?y]> (<[?c:=?z]> (files w))))
    with (replay [(c, z); (b, y); (a, x)] (files w)).
  split; [|split].
  - intros H1. rewrite replay_lookup. simpl.
    rewrite (decide_False (P := out_orders_clean cfg = _)) by done.
    by rewrite decide_True.
  - intros H1 H2. rewrite replay_lookup. simpl.
    rewrite (decide_False (P := out_orders_clean cfg = _)) by done.
    rewrite (decide_False (P := out_analytics cfg = _)) by done.
    by rewrite decide_True.
  - intros path H1 H2 H3. rewrite replay_lookup. simpl.
    by rewrite !decide_False.
Qed.

Lemma load_outputs_tables_witness :
  (etl.load_outputs fixture.analytics_four fixture.users fixture.cfg
     (fixture.world_of fixture.orders_outlier)).1 = Ok ()
  ∧ files (etl.load_outputs fixture.analytics_four fixture.users fixture.cfg
             (fixture.world_of fixture.orders_outlier)).2 !! out_users fixture.cfg
    = Some (Parquet fixture.users).
Proof.
  destruct (load_outputs_tables fixture.analytics_four fixture.users fixture.cfg
              (fixture.world_of fixture.orders_outlier)
              (nothing_locked _ _) (nothing_locked _ _) (nothing_locked _ _))
    as (Hok & _ & _ & Husers & _).
  split; [exact Hok|]. apply Husers; by apply (bool_decide_unpack _).
Defined.

(** X8. No write is undone: when the users table can be written and the
    analytics table cannot, a run whose inputs passed [transform] ends with
    [SinkWriteError], the users table is at [out_users], it is the only
    write of the run, and no metadata is written. *)
Theorem run_etl_partial_output `{BootcampData}
    (cfg : ETLConfig) (w : world) (orders_raw users analytics : DataFrame) :
  (etl.load_inputs cfg w).1 = Ok (orders_raw, users) →
  etl.transform orders_raw users = Ok analytics →
  out_users cfg ∉ locked w →
  out_analytics cfg ∈ locked w →
  (etl.run_etl cfg w).1 = Raise SinkWriteError
  ∧ files (etl.run_etl cfg w).2 = <[out_users cfg := Parquet users]> (files w)
  ∧ written (etl.run_etl cfg w).2 = (written w ++ [(out_users cfg, Parquet users)])%list.
Proof.
  intros Hin Htr Hu Ha.
  destruct (write_run_meta_writes cfg orders_raw users analytics) as (m & Hmeta & _).
  rewrite (run_etl_writes cfg w _ _ _ m Hin Htr Hmeta), write_all_outcome. simpl.
  rewrite (decide_False (P := out_users cfg ∈ _)) by done.
  rewrite (decide_True (P := out_analytics cfg ∈ _)) by done. done.
Qed.

Lemma run_etl_partial_output_witness :
  (@etl.run_etl fixture.lib fixture.cfg sample.world_analytics_locked).1
  = Raise SinkWriteError
  ∧ (written (@etl.run_etl fixture.lib fixture.cfg sample.world_analytics_locked).2).*1
    = ["repo/data/processed/users.parquet"].
Proof.
  assert (∃ analytics,
            @etl.transform fixture.lib fixture.orders_outlier fixture.users = Ok analytics)
    as [analytics Htr] by (eexists; compute_eq).
  destruct (@run_etl_partial_output fixture.lib fixture.cfg sample.world_analytics_locked
              fixture.orders_outlier fixture.users analytics) as (Hres & _ & Hlog).
  - compute_eq.
  - exact Htr.
  - by apply (bool_decide_unpack _).
  - by apply (bool_decide_unpack _).
  - split; [exact Hres|]. rewrite Hlog. reflexivity.
Defined.

(** ** etl.write_run_meta *)

Lemma sum_le_length (bs : list bool) : sum bs ≤ length bs.
Proof. unfold sum. apply length_filter. Qed.

Lemma match_rate_unit (bs : list bool) q :
  one_minus (mean bs) = fin q → (0 <= q <= 1)%Q.
Proof.
  destruct bs as [|b bs]; [done|]. unfold mean, one_minus. intros [= <-].
  rewrite Qred_correct. unfold ratio. rewrite Qred_correct.
  pose proof (sum_le_length (b :: bs)) as Hle.
  pose proof (pos_of_length b bs) as Hpos. simpl length in Hle, Hpos.
  unfold Qle, Qminus, Qplus, Qopp. cbn [Qnum Qden].
  rewrite !Pos.mul_1_l, Hpos. split; nia.
Qed.

Lemma getitem_length df c s :
  Forall (λ p : string * Series, length p.2 = index df) (data df) →
  getitem df c = Ok s → length s = len df.
Proof.
  unfold getitem, len. intros Hwf Hget.
  induction Hwf as [|[c' s'] d Hlen _ IH]; simpl in *; [done|].
  destruct (decide (c' = c)); [by simplify_eq|auto].
Qed.

(** X9. In the metadata written for a table whose columns all have one cell
    per row, [missing_created_at] is at most [rows_out_analytics], and
    [country_match_rate], when it is a number, lies between 0 and 1. *)
Theorem write_run_meta_bounds
    (cfg : ETLConfig) (orders_raw users analytics : DataFrame) (w w' : world)
    (m : RunMeta) :
  Forall (λ p : string * Series, length p.2 = index analytics) (data analytics) →
  etl.write_run_meta cfg orders_raw users analytics w = (Ok (), w') →
  files w' !! run_meta cfg = Some (Json m) →
  (∀ n, missing_created_at (metrics m) = Some n → n ≤ rows_out_analytics m)
  ∧ (∀ q, country_match_rate (metrics m) = Some (fin q) → (0 <= q <= 1)%Q).
Proof.
  intros Hwf Hrun Hfile.
  destruct (write_run_meta_writes cfg orders_raw users analytics)
    as (m0 & Hmeta & _ & _ & Hrows & _ & Hts & Hco & Hnots & Hnoco).
  rewrite Hmeta in Hrun.
  assert (Hok : (write_all [(run_meta cfg, Json m0)] w).1 = Ok ()) by by rewrite Hrun.
  destruct (write_all_ok _ _ Hok) as [Hfiles _]. rewrite Hrun in Hfiles. simpl in Hfiles.
  rewrite Hfiles in Hfile. unfold replay in Hfile. simpl in Hfile.
  rewrite lookup_insert_eq in Hfile. injection Hfile as <-.
  split.
  - intros n Hn. rewrite Hrows.
    destruct (decide ("created_at" ∈ columns analytics)) as [Hin|Hnin].
    + destruct (getitem_columns _ _ Hin) as [s Hs].
      rewrite (Hts s Hs) in Hn. injection Hn as <-.
      rewrite <- (getitem_length _ _ _ Hwf Hs).
      etrans; [apply sum_le_length|]. unfold isna. by rewrite length_fmap.
    + by rewrite Hnots in Hn.
  - intros q Hq.
    destruct (decide ("country" ∈ columns analytics)) as [Hin|Hnin].
    + destruct (getitem_columns _ _ Hin) as [s Hs].
      rewrite (Hco s Hs) in Hq. injection Hq as Hq. by eapply match_rate_unit.
    + by rewrite Hnoco in Hq.
Qed.

Lemma write_run_meta_bounds_witness :
  ∃ w' m,
    etl.write_run_meta fixture.cfg fixture.orders_outlier fixture.users
      fixture.analytics_four (fixture.world_of fixture.orders_outlier) = (Ok (), w')
    ∧ files w' !! run_meta fixture.cfg = Some (Json m)
    ∧ (∀ n, missing_created_at (metrics m) = Some n → n ≤ rows_out_analytics m).
Proof.
  eexists _, _. split; [compute_eq|]. split; [compute_eq|].
  eapply (write_run_meta_bounds fixture.cfg fixture.orders_outlier fixture.users
            fixture.analytics_four (fixture.world_of fixture.orders_outlier)).
  - repeat constructor.
  - compute_eq.
  - compute_eq.
Defined.

(** ** The scripts *)

(** Case analysis on the next step of a script whose result is named in [Hr]. *)
Ltac script_step Hr :=
  match type of Hr with
  | context [match ?x with _ => _ end] =>
      lazymatch x with
      | context [match _ with _ => _ end] => fail
      | _ => let E := fresh "E" in destruct x eqn:E; simpl in Hr
      end
  end.

(** X10. The day-2 script writes its missingness report first, then the
    cleaned orders, then the users.  A table is written only after the
    report, and only when the cleaned orders passed the range checks on
    [amount] and [quantity]; a run that returns did the three writes, the
    last one of the users as they were read. *)
Theorem day2_main_writes `{BootcampData} (ROOT : string) (w : world) :
  let p := make_paths ROOT in
  ∃ t, written (run_day2_clean.main ROOT w).2 = (written w ++ t)%list
    ∧ (∀ i path df, t !! i = Some (path, Parquet df) →
         ∃ rep orders_clean,
           take 2 t
           = [ (path_join (path_join ROOT "reports") "missingness_orders.csv", Csv rep);
               (path_join (processed p) "orders_clean.parquet", Parquet orders_clean) ]
           ∧ (a ← getitem orders_clean "amount"; assert_in_range a 0%Q None "amount")
             = Ok ()
           ∧ (q ← getitem orders_clean "quantity"; assert_in_range q 0%Q None "quantity")
             = Ok ())
    ∧ ((run_day2_clean.main ROOT w).1 = Ok () →
       ∃ users, files w !! path_join (raw p) "users.csv" = Some (Csv users)
         ∧ t !! 2 = Some (path_join (processed p) "users.parquet", Parquet users)
         ∧ length t = 3).
Proof.
  intros p. remember (run_day2_clean.main ROOT w) as r eqn:Hr.
  unfold run_day2_clean.main in Hr. fold p in Hr.
  unfold mbind, IO_bind, lift, io.read_users_csv, io.read_orders_csv, io.write_parquet,
    to_csv, write_file in Hr.
  simpl in Hr.
  repeat script_step Hr.
  all: subst r; simpl.
  all: repeat match goal with u : () |- _ => destruct u end.
  all: first
    [ exists []; split; [by rewrite app_nil_r|]
    | eexists [_]; split; [reflexivity|]
    | eexists [_; _]; split; [by rewrite <- !app_assoc|]
    | eexists [_; _; _]; split; [by rewrite <- !app_assoc|] ].
  all: split;
    [ intros i path df' Hi; destruct i as [|[|[|i]]]; simplify_eq/=;
      (eexists _, _; (split; [reflexivity|split; assumption]))
    | first [ intros _; eexists; repeat split; reflexivity | intros [=] ] ].
Qed.

Lemma day2_main_writes_witness :
  (@run_day2_clean.main fixture.lib "repo" (fixture.world_of fixture.orders_outlier)).1
  = Ok ()
  ∧ ∃ t, written (@run_day2_clean.main fixture.lib "repo"
                    (fixture.world_of fixture.orders_outlier)).2
         = (written (fixture.world_of fixture.orders_outlier) ++ t)%list
      ∧ length t = 3.
Proof.
  split; [compute_eq|].
  destruct (@day2_main_writes fixture.lib "repo" (fixture.world_of fixture.orders_outlier))
    as (t & Ht & _ & Hok).
  exists t. split; [exact Ht|].
  destruct Hok as (users & _ & _ & Hlen); [compute_eq|exact Hlen].
Defined.

Lemma lookup_column_set_other c c' s d :
  c ≠ c' → lookup_column c (set_column c' s d) = lookup_column c d.
Proof.
  intros Hne. unfold set_column. destruct (decide (c' ∈ d.*1)) as [Hin|Hnin].
  - clear Hin. induction d as [|[c0 s0] d IH]; [done|]. simpl.
    destruct (decide (c0 = c')) as [->|]; simpl.
    + rewrite !decide_False by done. apply IH.
    + destruct (decide (c0 = c)); [done|apply IH].
  - clear Hnin. induction d as [|[c0 s0] d IH]; simpl.
    + by rewrite decide_False.
    + destruct (decide (c0 = c)); [done|apply IH].
Qed.

Lemma getitem_assign_other df c c' s :
  c ≠ c' → getitem (assign df c' s) c = getitem df c.
Proof. intros Hne. unfold getitem, assign. simpl. by rewrite lookup_column_set_other. Qed.

(** X11. The day-3 script writes nothing, or the analytics table, or the
    analytics table and then the revenue report; a run that writes nothing
    leaves the world as it was and a run that returns wrote both.  The table
    written comes from a join that kept the row count of the orders; its
    outlier flag was computed on a table whose [amount] column is the joined
    one, the capped amounts being in [amount_winsor]; the report is the
    summary of the table written. *)
Theorem day3_main_writes `{BootcampData}
    (revenue_by_country : DataFrame → result DataFrame) (ROOT : string) (w : world) :
  let p := make_paths ROOT in
  let run := run_day3_build_analytics.main revenue_by_country ROOT w in
  ∃ t, written run.2 = (written w ++ t)%list
    ∧ (t = [] → run.2 = w)
    ∧ (run.1 = Ok () → length t = 2)
    ∧ (t = []
       ∨ ∃ orders_t users joined amount capped table,
           safe_left_join orders_t users "user_id" many_to_one (Some ("", "_user"))
           = Ok joined
           ∧ len joined = len orders_t
           ∧ getitem joined "amount" = Ok amount
           ∧ winsorize amount = Ok capped
           ∧ getitem (assign joined "amount_winsor" capped) "amount" = Ok amount
           ∧ add_outlier_flag (assign joined "amount_winsor" capped) "amount"
               (Some (3 # 2)%Q) = Ok table
           ∧ (t = [(path_join (processed p) "analytics_table.parquet", Parquet table)]
              ∨ ∃ summary,
                  revenue_by_country table = Ok summary
                  ∧ t = [ (path_join (processed p) "analytics_table.parquet",
                           Parquet table);
                          (path_join (path_join ROOT "reports") "revenue_by_country.csv",
                           Csv summary) ])).
Proof.
  intros p run. subst run.
  remember (run_day3_build_analytics.main revenue_by_country ROOT w) as r eqn:Hr.
  unfold run_day3_build_analytics.main, run_day3_build_analytics.join_users in Hr.
  fold p in Hr.
  unfold mbind, IO_bind, result_bind, lift, read_parquet, to_parquet, to_csv,
    write_file in Hr.
  simpl in Hr.
  repeat script_step Hr.
  all: subst r; simpl.
  all: repeat match goal with u : () |- _ => destruct u end.
  all: try (exists []; split; [by rewrite app_nil_r|];
            split; [done|]; split; [intros [=]|by left]).
  all: match goal with
       | n : ¬ len ?j ≠ len ?o,
         Ej : safe_left_join ?o ?u _ _ _ = Ok ?j,
         Ea : getitem ?j "amount" = Ok ?am,
         Ew : winsorize ?am = Ok ?cap,
         Et : add_outlier_flag _ _ _ = Ok ?tab |- _ =>
           assert (len j = len o) by (by destruct (decide (len j = len o)));
           eexists; (split; [by rewrite <- ?app_assoc|]); simpl;
           (split; [intros [=]|]);
           (split; [first [by intros _ | intros [=]]|]);
           right; exists o, u, j, am, cap, tab;
           (split; [done|]); (split; [done|]); (split; [done|]); (split; [done|]);
           (split; [by rewrite getitem_assign_other|]); (split; [done|]);
           first [by left | right; by eexists]
       end.
Qed.

Lemma day3_main_writes_witness :
  (@run_day3_build_analytics.main fixture.lib fixture.revenue_by_country "repo"
     fixture.world_day3).1 = Ok ()
  ∧ ∃ t, written (@run_day3_build_analytics.main fixture.lib fixture.revenue_by_country
                    "repo" fixture.world_day3).2
         = (written fixture.world_day3 ++ t)%list
      ∧ length t = 2.
Proof.
  split; [compute_eq|].
  destruct (@day3_main_writes fixture.lib fixture.revenue_by_country "repo"
              fixture.world_day3) as (t & Ht & _ & Hok & _).
  exists t. split; [exact Ht|]. apply Hok. compute_eq.
Defined.

Lemma lookup_column_set_same c s d :
  lookup_column c (set_column c s d) = Some s.
Proof.
  unfold set_column. destruct (decide (c ∈ d.*1)) as [Hin|Hnin].
  - induction d as [|[c0 s0] d IH]; [by apply elem_of_nil in Hin|]. simpl.
    destruct (decide (c0 = c)) as [->|Hne]; simpl.
    + by rewrite decide_True.
    + rewrite decide_False by done. apply IH.
      rewrite fmap_cons in Hin. apply elem_of_cons in Hin as [Heq|?]; [simpl in Heq; congruence|done].
  - induction d as [|[c0 s0] d IH]; simpl.
    + by rewrite decide_True.
    + rewrite fmap_cons in Hnin. apply not_elem_of_cons in Hnin as [Hne Hnin].
      rewrite decide_False by done. by apply IH.
Qed.

(** X12. A table returned by [transform] is what [add_outlier_flag] made of
    the joined table after its [amount] column was replaced by the
    winsorized amounts: the column the flag is computed from holds the
    capped values, aligned on the rows of the joined table. *)
Theorem transform_ok_stages `{BootcampData} (orders_raw users analytics : DataFrame) :
  etl.transform orders_raw users = Ok analytics →
  ∃ orders joined amount capped,
    safe_left_join orders users "user_id" many_to_one None = Ok joined
    ∧ getitem joined "amount" = Ok amount
    ∧ winsorize amount = Ok capped
    ∧ getitem (assign joined "amount" capped) "amount"
      = Ok (reindex (len joined) capped)
    ∧ add_outlier_flag (assign joined "amount" capped) "amount" None = Ok analytics.
Proof.
  intros Hr. unfold etl.transform, etl.amount_capped, mbind, result_bind in Hr.
  repeat script_step Hr; try discriminate Hr.
  eexists _, _, _, _. repeat (split; [eassumption|]).
  split; [|done]. unfold getitem, assign. simpl. by rewrite lookup_column_set_same.
Qed.

Lemma transform_ok_stages_witness :
  ∃ analytics joined capped,
    @etl.transform fixture.lib fixture.orders_outlier fixture.users = Ok analytics
    ∧ getitem (assign joined "amount" capped) "amount" = Ok (reindex (len joined) capped)
    ∧ @add_outlier_flag fixture.lib (assign joined "amount" capped) "amount" None
      = Ok analytics.
Proof.
  assert (∃ analytics,
            @etl.transform fixture.lib fixture.orders_outlier fixture.users = Ok analytics)
    as [analytics Htr] by (eexists; compute_eq).
  destruct (@transform_ok_stages fixture.lib fixture.orders_outlier fixture.users
              analytics Htr) as (orders & joined & amount & capped & _ & _ & _ & Hcol & Hflag).
  exists analytics, joined, capped. split; [exact Htr|]. split; [exact Hcol|exact Hflag].
Defined.
